(** * make-click-through.py: a verified model

    The script [scripts/make-click-through.py] clears the X11 input shape of
    one window.  This development embeds it in three layers:

    - [Python]: the interpreter built-ins the script calls on its argument
      ([str.startswith], [int(str, base)], [hex], [repr] inside the text of a
      [ValueError]);
    - [Xlib]: the python-xlib binding, as a collaborator whose answers are
      taken from a [World] and whose calls are recorded in a trace;
    - [Script]: [make_click_through] and the [__main__] block, line by line.

    Python [str] values are modelled as Rocq strings whose characters are the
    code points U+0000..U+00FF; arguments with other code points are outside
    the model.  Python [int] values are [Z]. *)

From Stdlib Require Import ZArith List String Ascii Bool Lia.
From Stdlib Require Import DecimalString HexString.
Import ListNotations.

Local Open Scope Z_scope.

(* ===================================================================== *)
(** ** Interpreter built-ins *)
(* ===================================================================== *)

Module Python.

(** An instance of (a subclass of) [Exception]: its class name and the text
    [str(e)] renders.  Exceptions outside [Exception] ([KeyboardInterrupt],
    [SystemExit]) are not raised by anything modelled here. *)
Record Exception : Type := mkException {
  class_name : string;
  message : string
}.

Definition ValueError (msg : string) : Exception := mkException "ValueError" msg.

(** [str(e)] as the f-string [{e}] renders it. *)
Definition str_exc (e : Exception) : string := message e.

(** The values [make_click_through] tells apart with [isinstance(_, str)]. *)
Inductive value : Type :=
| VStr (s : string)
| VInt (n : Z).

(** The interpreter settings the script depends on:
    [sys.get_int_max_str_digits()], 0 meaning no limit. *)
Record Interp : Type := mkInterp {
  int_max_str_digits : nat
}.

(** CPython's default configuration. *)
Definition default_interp : Interp := mkInterp 4300.

Definition ord (c : ascii) : Z := Z.of_N (N_of_ascii c).

Definition chr (n : Z) : ascii := ascii_of_N (Z.to_N n).

(** [Py_ISSPACE]: the C-locale white space of the byte-level parser. *)
Definition Py_ISSPACE (c : ascii) : bool :=
  (ord c =? 32) || ((9 <=? ord c) && (ord c <=? 13)).

(** [Py_UNICODE_ISSPACE] on the code points of the model. *)
Definition Py_UNICODE_ISSPACE (c : ascii) : bool :=
  Py_ISSPACE c || ((28 <=? ord c) && (ord c <=? 31))
  || (ord c =? 133) || (ord c =? 160).

(** [Py_UNICODE_TODECIMAL]: below U+0100 only the ASCII digits are decimal;
    -1 otherwise. *)
Definition Py_UNICODE_TODECIMAL (c : ascii) : Z :=
  if (48 <=? ord c) && (ord c <=? 57) then ord c - 48 else -1.

(** [_PyLong_DigitValue]: 37 marks a character that is no digit in any base. *)
Definition _PyLong_DigitValue (c : ascii) : Z :=
  let n := ord c in
  if (48 <=? n) && (n <=? 57) then n - 48
  else if (97 <=? n) && (n <=? 122) then n - 87
  else if (65 <=? n) && (n <=? 90) then n - 55
  else 37.


Definition PyUnicode_IS_ASCII (u : list ascii) : bool :=
  forallb (fun c => ord c <? 128) u.

(** The loop of [_PyUnicode_TransformDecimalAndSpaceToASCII]: the output is
    cut after the first character that is neither space nor decimal. *)
Fixpoint transform_chars (u : list ascii) : list ascii :=
  match u with
  | [] => []
  | ch :: rest =>
      if ord ch <? 127 then ch :: transform_chars rest
      else if Py_UNICODE_ISSPACE ch then " "%char :: transform_chars rest
      else
        let decimal := Py_UNICODE_TODECIMAL ch in
        if decimal <? 0 then ["?"%char]
        else chr (48 + decimal) :: transform_chars rest
  end.

Definition _PyUnicode_TransformDecimalAndSpaceToASCII (u : list ascii)
  : list ascii :=
  if PyUnicode_IS_ASCII u then u else transform_chars u.

Fixpoint skip_spaces (p : list ascii) : list ascii :=
  match p with
  | c :: rest => if Py_ISSPACE c then skip_spaces rest else p
  | [] => []
  end.

Definition is_underscore (c : ascii) : bool := ord c =? 95.

(** The digit loop of [PyLong_FromString]: consumes digits of [base] and
    single underscores between them.  [prev_underscore] is [prev == '_'].
    [None] is the jump to [onError] (doubled or trailing underscore);
    otherwise the digit values read and the unread rest. *)
Fixpoint scan_digits (base : Z) (p : list ascii) (prev_underscore : bool)
  : option (list Z * list ascii) :=
  match p with
  | c :: rest =>
      if is_underscore c then
        if prev_underscore then None else scan_digits base rest true
      else if _PyLong_DigitValue c <? base then
        match scan_digits base rest false with
        | Some (ds, unread) => Some (_PyLong_DigitValue c :: ds, unread)
        | None => None
        end
      else if prev_underscore then None else Some ([], p)
  | [] => if prev_underscore then None else Some ([], [])
  end.

(** Horner evaluation of the digits, most significant first. *)
Definition digits_to_int (base : Z) (ds : list Z) : Z :=
  fold_left (fun acc d => acc * base + d) ds 0.

Inductive int_error : Type :=
| invalid_literal
| exceeds_limit (max_str_digits digits : nat).

(** [_PY_LONG_MAX_STR_DIGITS_THRESHOLD] *)
Definition MAX_STR_DIGITS_THRESHOLD : nat := 640.

Definition is_binary_base (base : Z) : bool := Z.land base (base - 1) =? 0.

Definition strip_sign (str : list ascii) : Z * list ascii :=
  match str with
  | c :: rest =>
      if ord c =? 43 then (1, rest)
      else if ord c =? 45 then (-1, rest)
      else (1, str)
  | [] => (1, str)
  end.

(** The optional [0x]/[0o]/[0b] prefix of an explicit base, and the one
    underscore allowed after it. *)
Definition strip_base_prefix (base : Z) (str : list ascii) : list ascii :=
  match str with
  | c0 :: c1 :: rest =>
      if (ord c0 =? 48)
         && (((base =? 16) && ((ord c1 =? 120) || (ord c1 =? 88)))
             || ((base =? 8) && ((ord c1 =? 111) || (ord c1 =? 79)))
             || ((base =? 2) && ((ord c1 =? 98) || (ord c1 =? 66))))
      then match rest with
           | u :: rest' => if is_underscore u then rest' else rest
           | [] => rest
           end
      else str
  | _ => str
  end.

Definition over_limit (max_str_digits digits : nat) : bool :=
  (MAX_STR_DIGITS_THRESHOLD <? digits)%nat
  && (0 <? max_str_digits)%nat && (max_str_digits <? digits)%nat.

(** [PyLong_FromString(str, &end, base)] for an explicit base in 2..36, with
    the caller's check that [end] is the end of the buffer.  The order of the
    checks is CPython 3.11's: underscores, conversion limit, emptiness,
    trailing white space. *)
Definition PyLong_FromString (max_str_digits : nat) (str : list ascii)
  (base : Z) : int_error + Z :=
  let str := skip_spaces str in
  let '(sign, str) := strip_sign str in
  let str := strip_base_prefix base str in
  match str with
  | c :: _ =>
      if is_underscore c then inl invalid_literal
      else
        match scan_digits base str false with
        | None => inl invalid_literal
        | Some (ds, unread) =>
            let digits := List.length ds in
            if negb (is_binary_base base) && over_limit max_str_digits digits
            then inl (exceeds_limit max_str_digits digits)
            else
              match ds with
              | [] => inl invalid_literal
              | _ :: _ =>
                  match skip_spaces unread with
                  | [] => inr (sign * digits_to_int base ds)
                  | _ :: _ => inl invalid_literal
                  end
              end
        end
  | [] => inl invalid_literal
  end.

(** *** [repr] of a [str] *)

Definition hexdigit (n : Z) : ascii :=
  if n <? 10 then chr (48 + n) else chr (87 + n).

Definition Py_UNICODE_ISPRINTABLE (c : ascii) : bool :=
  let n := ord c in
  ((32 <=? n) && (n <=? 126)) || ((161 <=? n) && negb (n =? 173)).

Definition repr_char (quote : ascii) (c : ascii) : list ascii :=
  let n := ord c in
  if (n =? ord quote) || (n =? 92) then ["\"%char; c]
  else if n =? 9 then ["\"%char; "t"%char]
  else if n =? 10 then ["\"%char; "n"%char]
  else if n =? 13 then ["\"%char; "r"%char]
  else if Py_UNICODE_ISPRINTABLE c then [c]
  else ["\"%char; "x"%char; hexdigit (n / 16); hexdigit (n mod 16)].

Definition contains_char (n : Z) (u : list ascii) : bool :=
  existsb (fun c => ord c =? n) u.

Definition repr (s : string) : string :=
  let u := list_ascii_of_string s in
  let quote :=
    if contains_char 39 u && negb (contains_char 34 u)
    then chr 34 else chr 39 in
  string_of_list_ascii ([quote] ++ flat_map (repr_char quote) u ++ [quote])%list.

Local Open Scope string_scope.

Definition str_of_nat (n : nat) : string :=
  NilEmpty.string_of_uint (Nat.to_uint n).

Definition str_of_int (n : Z) : string :=
  NilEmpty.string_of_int (Z.to_int n).

Definition int_error_message (s : string) (base : Z) (e : int_error) : string :=
  match e with
  | invalid_literal =>
      "invalid literal for int() with base " ++ str_of_int base ++ ": "
      ++ substring 0 200 (repr s)
  | exceeds_limit max digits =>
      "Exceeds the limit (" ++ str_of_nat max
      ++ " digits) for integer string conversion: value has "
      ++ str_of_nat digits
      ++ " digits; use sys.set_int_max_str_digits() to increase the limit"
  end.

(** [int(s, base)] on a [str], for an explicit base in 2..36. *)
Definition int (I : Interp) (s : string) (base : Z) : Exception + Z :=
  let buffer :=
    _PyUnicode_TransformDecimalAndSpaceToASCII (list_ascii_of_string s) in
  match PyLong_FromString (int_max_str_digits I) buffer base with
  | inr n => inr n
  | inl e => inl (ValueError (int_error_message s base e))
  end.

(** [s.startswith(prefix)] *)
Fixpoint startswith (s prefix : string) {struct prefix} : bool :=
  match prefix with
  | EmptyString => true
  | String p prefix' =>
      match s with
      | String c s' => Ascii.eqb c p && startswith s' prefix'
      | EmptyString => false
      end
  end.

(** [hex(n)]: sign, [0x], lower-case digits without leading zeros. *)
Definition hex (n : Z) : string := HexString.of_Z n.

End Python.

(* ===================================================================== *)
(** ** The python-xlib binding and the observable trace *)
(* ===================================================================== *)

Module Xlib.

Import Python.

(** [Xlib.ext.shape] operations and kinds, [Xlib.X] rectangle orderings. *)
Inductive shape_op : Type :=
| SO_Set | SO_Union | SO_Intersect | SO_Subtract | SO_Invert.

Inductive shape_kind : Type :=
| SK_Bounding | SK_Clip | SK_Input.

Inductive ordering : Type :=
| Unsorted | YSorted | YXSorted | YXBanded.

Record rectangle : Type := mkRectangle {
  rect_x : Z; rect_y : Z; rect_width : Z; rect_height : Z
}.

(** The arguments of one [window.shape_rectangles(...)] call, with the
    window the method is called on. *)
Record shape_request : Type := mkShapeRequest {
  destination_window : Z;
  operation : shape_op;
  destination_kind : shape_kind;
  rect_ordering : ordering;
  x_offset : Z;
  y_offset : Z;
  rectangles : list rectangle
}.

(** A display object as the script uses it.  Every method either returns or
    raises; [create_resource_object] returns the proxy of the given id. *)
Record Display : Type := mkDisplay {
  create_resource_object : string -> Z -> Exception + unit;
  has_extension : string -> Exception + bool;
  shape_rectangles : shape_request -> Exception + unit;
  sync : Exception + unit
}.

(** What one run of the script meets outside itself: whether the [Xlib]
    imports succeed (otherwise [ImportError]), and what [display.Display()]
    gives. *)
Record World : Type := mkWorld {
  xlib_installed : bool;
  display_Display : Exception + Display
}.

(** What a run does that can be seen from outside, in order. *)
Inductive event : Type :=
| Display_open
| Create_resource_object (type : string) (id : Z)
| Has_extension (name : string)
| Shape_rectangles (r : shape_request)
| Sync
| Stdout (line : string).

Definition trace : Type := list event.

End Xlib.

(* ===================================================================== *)
(** ** Computations that log events and may raise *)
(* ===================================================================== *)

Module Run.

Import Python Xlib.

Definition Run (A : Type) : Type := (trace * (Exception + A))%type.

Definition ret {A} (x : A) : Run A := ([], inr x).

Definition bind {A B} (m : Run A) (k : A -> Run B) : Run B :=
  match m with
  | (t, inl e) => (t, inl e)
  | (t, inr x) => let (t', r) := k x in ((t ++ t')%list, r)
  end.

(** The result of a pure built-in that may raise. *)
Definition lift {A} (r : Exception + A) : Run A := ([], r).

(** A call into the binding: logged, then its answer. *)
Definition call {A} (ev : event) (answer : Exception + A) : Run A :=
  ([ev], answer).

Definition print (line : string) : Run unit := ([Stdout line], inr tt).

(** [try: body except Exception as e: handler e] *)
Definition try_except {A} (body : Run A) (handler : Exception -> Run A)
  : Run A :=
  match body with
  | (t, inr x) => (t, inr x)
  | (t, inl e) => let (t', r) := handler e in ((t ++ t')%list, r)
  end.

Module Notations.
  Notation "x <- m ;; k" := (bind m (fun x => k))
    (at level 61, m at next level, right associativity).
  Notation "m ;; k" := (bind m (fun _ => k))
    (at level 61, right associativity).
End Notations.

End Run.

(* ===================================================================== *)
(** ** The script *)
(* ===================================================================== *)

Module Script.

Import Python Xlib Run Run.Notations.
Local Open Scope string_scope.

Section Program.

Variable I : Interp.
Variable W : World.

(** Lines 23-29: "Convert window ID (might be hex string or int)". *)
Definition convert_window_id (window_id : value) : Exception + Z :=
  match window_id with
  | VStr s =>
      if startswith s "0x" then int I s 16
      else int I s 10
  | VInt n => inr n
  end.

(** Lines 42-48. *)
Definition empty_input_shape (wid : Z) : shape_request :=
  mkShapeRequest wid SO_Set SK_Input YXBanded 0 0 [].

Definition success_line (wid : Z) : string :=
  "Window " ++ hex wid ++ " is now click-through".

(** Lines 20-52: the body of the [try]. *)
Definition make_click_through_body (window_id : value) : Run bool :=
  d <- call Display_open (display_Display W) ;;
  wid <- lift (convert_window_id window_id) ;;
  call (Create_resource_object "window" wid)
       (create_resource_object d "window" wid) ;;
  shape_available <- call (Has_extension "SHAPE") (has_extension d "SHAPE") ;;
  if negb shape_available then
    print "Error: X SHAPE extension not available" ;;
    ret false
  else
    call (Shape_rectangles (empty_input_shape wid))
         (shape_rectangles d (empty_input_shape wid)) ;;
    call Sync (sync d) ;;
    print (success_line wid) ;;
    ret true.

(** Lines 17-56. *)
Definition make_click_through (window_id : value) : Run bool :=
  try_except (make_click_through_body window_id)
    (fun e => print ("Error: " ++ str_exc e) ;; ret false).

Definition import_error_line : string :=
  "Error: python-xlib not installed. Install with: nix-shell -p python3Packages.xlib".

Definition usage_lines : list string :=
  [ "Usage: make-click-through.py <window_id>";
    "  window_id can be decimal or hex (0x...)" ].

(** The whole script: the import guard (lines 10-15) and the [__main__]
    block (lines 58-68).  The result is the trace and the exit status. *)
Definition main (argv : list string) : trace * Z :=
  if negb (xlib_installed W) then ([Stdout import_error_line], 1)
  else if (List.length argv <? 2)%nat then (map Stdout usage_lines, 1)
  else
    let window_id := nth 1 argv "" in
    match make_click_through (VStr window_id) with
    | (t, inr true) => (t, 0)
    | (t, _) => (t, 1)
    end.

End Program.

(** *** Observations on traces *)

Definition shape_requests (t : trace) : list shape_request :=
  flat_map (fun ev => match ev with Shape_rectangles r => [r] | _ => [] end) t.

Definition stdout_lines (t : trace) : list string :=
  flat_map (fun ev => match ev with Stdout l => [l] | _ => [] end) t.

Definition is_display_open (ev : event) : bool :=
  match ev with Display_open => true | _ => false end.

Definition is_sync (ev : event) : bool :=
  match ev with Sync => true | _ => false end.

Definition connection_attempts (t : trace) : nat :=
  List.length (filter is_display_open t).

Definition syncs (t : trace) : nat := List.length (filter is_sync t).

(** The line the [except] clause prints. *)
Definition error_line (e : Exception) : event := Stdout ("Error: " ++ str_exc e).

Definition events (r : trace * Z) : trace := fst r.

Definition exit_status (r : trace * Z) : Z := snd r.

(** The display can be opened and answers that it has the SHAPE extension. *)
Definition reports_shape (W : World) : bool :=
  match display_Display W with
  | inr d =>
      match has_extension d "SHAPE" with
      | inr available => available
      | inl _ => false
      end
  | inl _ => false
  end.

(** [raised I W window_id e]: in world [W], some step of the [try] block
    raises [e], all the steps before it having returned. *)
Inductive raised (I : Interp) (W : World) (window_id : value)
  : Exception -> Prop :=
| raised_by_Display e :
    display_Display W = inl e ->
    raised I W window_id e
| raised_by_int d e :
    display_Display W = inr d ->
    convert_window_id I window_id = inl e ->
    raised I W window_id e
| raised_by_create_resource_object d wid e :
    display_Display W = inr d ->
    convert_window_id I window_id = inr wid ->
    create_resource_object d "window" wid = inl e ->
    raised I W window_id e
| raised_by_has_extension d wid e :
    display_Display W = inr d ->
    convert_window_id I window_id = inr wid ->
    create_resource_object d "window" wid = inr tt ->
    has_extension d "SHAPE" = inl e ->
    raised I W window_id e
| raised_by_shape_rectangles d wid e :
    display_Display W = inr d ->
    convert_window_id I window_id = inr wid ->
    create_resource_object d "window" wid = inr tt ->
    has_extension d "SHAPE" = inr true ->
    shape_rectangles d (empty_input_shape wid) = inl e ->
    raised I W window_id e
| raised_by_sync d wid e :
    display_Display W = inr d ->
    convert_window_id I window_id = inr wid ->
    create_resource_object d "window" wid = inr tt ->
    has_extension d "SHAPE" = inr true ->
    shape_rectangles d (empty_input_shape wid) = inr tt ->
    sync d = inl e ->
    raised I W window_id e.

End Script.

(* ===================================================================== *)
(** ** What the specification calls an identifier *)
(* ===================================================================== *)

(** These definitions follow the words of the specification, not the code:
    an identifier is "a non-empty string parseable as either a base-10
    integer or a 0x/0X-prefixed base-16 integer", and its value is the
    "standard" positional reading of its digits.  Digits are read with the
    Standard Library's [HexString.ascii_to_digit]. *)
Module Spec.

Definition digit_value (c : ascii) : Z :=
  match HexString.ascii_to_digit c with
  | Some v => Z.of_N v
  | None => 0
  end.

Definition is_hex_digit (c : ascii) : bool :=
  match HexString.ascii_to_digit c with
  | Some _ => true
  | None => false
  end.

Definition is_decimal_digit (c : ascii) : bool :=
  match HexString.ascii_to_digit c with
  | Some v => (v <? 10)%N
  | None => false
  end.

(** d(n-1) ... d1 d0 in base b is the sum of d(i) * b^i. *)
Fixpoint positional_value (base : Z) (ds : list ascii) : Z :=
  match ds with
  | [] => 0
  | d :: rest =>
      digit_value d * base ^ Z.of_nat (List.length rest)
      + positional_value base rest
  end.

Definition nonempty_all (p : ascii -> bool) (s : string) : bool :=
  match list_ascii_of_string s with
  | [] => false
  | ds => forallb p ds
  end.

Definition is_decimal_string (s : string) : bool :=
  nonempty_all is_decimal_digit s.

Definition is_hex_digits (s : string) : bool :=
  nonempty_all is_hex_digit s.

Definition is_prefixed_hex_string (s : string) : bool :=
  match s with
  | String "0" (String "x" ds) => is_hex_digits ds
  | String "0" (String "X" ds) => is_hex_digits ds
  | _ => false
  end.

Definition valid_identifier (s : string) : bool :=
  is_decimal_string s || is_prefixed_hex_string s.

Definition decimal_value (s : string) : Z :=
  positional_value 10 (list_ascii_of_string s).

Definition hex_value (digits : string) : Z :=
  positional_value 16 (list_ascii_of_string digits).

End Spec.

(* ===================================================================== *)
(** ** Worlds used in the examples *)
(* ===================================================================== *)

Module Worlds.

Import Python Xlib.
Local Open Scope string_scope.

(** A server with the SHAPE extension that accepts every request. *)
Definition display_ok : Display :=
  mkDisplay (fun _ _ => inr tt)
            (fun name => inr (String.eqb name "SHAPE"))
            (fun _ => inr tt)
            (inr tt).

(** A server without the SHAPE extension. *)
Definition display_no_shape : Display :=
  mkDisplay (fun _ _ => inr tt) (fun _ => inr false) (fun _ => inr tt) (inr tt).

(** A binding that raises on the shape request. *)
Definition bad_window : Exception :=
  mkException "BadWindow" "the window does not exist".

Definition display_rejecting : Display :=
  mkDisplay (fun _ _ => inr tt)
            (fun name => inr (String.eqb name "SHAPE"))
            (fun _ => inl bad_window)
            (inr tt).

Definition world_ok : World := mkWorld true (inr display_ok).
Definition world_no_shape : World := mkWorld true (inr display_no_shape).
Definition world_rejecting : World := mkWorld true (inr display_rejecting).
Definition world_no_xlib : World := mkWorld false (inr display_ok).

Definition nines (n : nat) : string := string_of_list_ascii (repeat "9"%char n).

End Worlds.

(* ===================================================================== *)
(** ** Vocabulary for whole runs and for literals *)
(* ===================================================================== *)

Module Behaviour.

Import Python Xlib Run Script.
Local Open Scope string_scope.

(** Every step of the [try] block returns, and the capability query
    answers [True]. *)
Definition succeeds (I : Interp) (W : World) (window_id : value) : Prop :=
  exists d wid,
    display_Display W = inr d
    /\ convert_window_id I window_id = inr wid
    /\ create_resource_object d "window" wid = inr tt
    /\ has_extension d "SHAPE" = inr true
    /\ shape_rectangles d (empty_input_shape wid) = inr tt
    /\ sync d = inr tt.

Definition is_stdout (ev : event) : bool :=
  match ev with Stdout _ => true | _ => false end.

(** The calls into the binding, without the printed lines. *)
Definition calls (t : trace) : trace :=
  filter (fun ev => negb (is_stdout ev)) t.

(** The calls of lines 20, 31, 34, 42 and 50, in program order. *)
Definition call_sequence (wid : Z) : trace :=
  [ Display_open;
    Create_resource_object "window" wid;
    Has_extension "SHAPE";
    Shape_rectangles (empty_input_shape wid);
    Sync ].

(** How many calls of the sequence are made before the run stops: up to and
    including the first call that raises, or the capability query when it
    answers [False], and all five once the request has returned.  The
    conversion is not a call: when it raises, only the display has been
    opened. *)
Definition calls_until_stop (I : Interp) (W : World) (window_id : value)
  : nat :=
  match display_Display W with
  | inl _ => 1
  | inr d =>
      match convert_window_id I window_id with
      | inl _ => 1
      | inr wid =>
          match create_resource_object d "window" wid with
          | inl _ => 2
          | inr _ =>
              match has_extension d "SHAPE" with
              | inl _ => 3
              | inr false => 3
              | inr true =>
                  match shape_rectangles d (empty_input_shape wid) with
                  | inl _ => 4
                  | inr _ => 5
                  end
              end
          end
      end
  end%nat.

(** A string of C-locale white space (possibly empty). *)
Definition is_space_string (ws : string) : bool :=
  forallb Py_ISSPACE (list_ascii_of_string ws).

Inductive sign : Type := Unsigned | Plus | Minus.

Definition sign_string (sg : sign) : string :=
  match sg with Unsigned => "" | Plus => "+" | Minus => "-" end.

Definition sign_factor (sg : sign) : Z :=
  match sg with Minus => -1 | _ => 1 end.

Definition sign_chars (sg : sign) : list ascii :=
  list_ascii_of_string (sign_string sg).


(** The characters a decimal literal can be made of: digits, underscore,
    sign, C-locale white space, and the two white-space code points between
    U+007F and U+00FF (NEL and NBSP). *)
Definition decimal_literal_char (c : ascii) : bool :=
  Spec.is_decimal_digit c || is_underscore c
  || (ord c =? 43)%Z || (ord c =? 45)%Z
  || Py_ISSPACE c || (ord c =? 133)%Z || (ord c =? 160)%Z.

(** The characters that can follow the [0x] of a hexadecimal literal. *)
Definition hex_literal_char (c : ascii) : bool :=
  Spec.is_hex_digit c || is_underscore c
  || Py_ISSPACE c || (ord c =? 133)%Z || (ord c =? 160)%Z.

(** The characters of a buffer the byte-level parser accepts in [base]:
    white space, underscore, digits of the base; with a sign in front. *)
Definition literal_char (base : Z) (c : ascii) : bool :=
  Py_ISSPACE c || is_underscore c || (_PyLong_DigitValue c <? base)%Z.

Definition signed_literal_char (base : Z) (c : ascii) : bool :=
  literal_char base c || (ord c =? 43)%Z || (ord c =? 45)%Z.

(** Digit groups joined by single underscores, as in [1_000_000]. *)
Fixpoint join_underscore (groups : list string) : string :=
  match groups with
  | [] => ""
  | [g] => g
  | g :: rest => g ++ "_" ++ join_underscore rest
  end.

Definition concat_groups (groups : list string) : string :=
  fold_right append "" groups.

(** The same joining, on the characters. *)
Fixpoint join_chars (groups : list (list ascii)) : list ascii :=
  match groups with
  | [] => []
  | [g] => g
  | g :: rest => (g ++ "_"%char :: join_chars rest)%list
  end.

End Behaviour.

(* ===================================================================== *)
(** ** Facts about the built-ins *)
(* ===================================================================== *)

Import Python Xlib Run Script.

(** What the parser sees in a character the specification calls a hex digit. *)
Lemma hex_digit_char (c : ascii) :
  Spec.is_hex_digit c = true ->
  is_underscore c = false
  /\ (_PyLong_DigitValue c <? 16) = true
  /\ _PyLong_DigitValue c = Spec.digit_value c
  /\ (ord c <? 128) = true.
Proof.
  destruct c as [[] [] [] [] [] [] [] []]; vm_compute; intro H;
    try discriminate H; repeat split; reflexivity.
Qed.

Lemma decimal_digit_char (c : ascii) :
  Spec.is_decimal_digit c = true ->
  is_underscore c = false
  /\ (_PyLong_DigitValue c <? 10) = true
  /\ _PyLong_DigitValue c = Spec.digit_value c
  /\ (ord c <? 128) = true
  /\ Py_ISSPACE c = false
  /\ (ord c =? 43) = false /\ (ord c =? 45) = false
  /\ (ord c =? 120) = false.
Proof.
  destruct c as [[] [] [] [] [] [] [] []]; vm_compute; intro H;
    try discriminate H; repeat split; reflexivity.
Qed.

Section ParserFacts.

Variable base : Z.

(** On a run of digits of [base] without underscores the digit loop reads
    everything. *)
Lemma scan_digits_all (ds : list ascii) :
  Forall (fun c => is_underscore c = false
                   /\ (_PyLong_DigitValue c <? base) = true) ds ->
  scan_digits base ds false = Some (map _PyLong_DigitValue ds, []).
Proof.
  induction 1 as [|c ds [Hu Hd] _ IH]; simpl.
  - reflexivity.
  - rewrite Hu, Hd, IH. reflexivity.
Qed.

(** Horner evaluation agrees with the positional sum. *)
Lemma horner_positional (ds : list ascii) (acc : Z) :
  Forall (fun c => _PyLong_DigitValue c = Spec.digit_value c) ds ->
  fold_left (fun a d => a * base + d) (map _PyLong_DigitValue ds) acc
  = acc * base ^ Z.of_nat (List.length ds) + Spec.positional_value base ds.
Proof.
  intro H. revert acc.
  induction H as [|c ds Hc _ IH]; intro acc; simpl fold_left.
  - simpl. ring.
  - rewrite IH, Hc. cbn [List.length Spec.positional_value].
    rewrite Nat2Z.inj_succ, Z.pow_succ_r by lia. ring.
Qed.

Lemma digits_to_int_positional (ds : list ascii) :
  Forall (fun c => _PyLong_DigitValue c = Spec.digit_value c) ds ->
  digits_to_int base (map _PyLong_DigitValue ds) = Spec.positional_value base ds.
Proof.
  intro H. unfold digits_to_int. rewrite horner_positional by assumption. ring.
Qed.

End ParserFacts.

Lemma skip_spaces_not_space (c : ascii) (rest : list ascii) :
  Py_ISSPACE c = false -> skip_spaces (c :: rest) = c :: rest.
Proof. intro H. simpl. rewrite H. reflexivity. Qed.

Lemma transform_ascii (u : list ascii) :
  Forall (fun c => (ord c <? 128) = true) u ->
  _PyUnicode_TransformDecimalAndSpaceToASCII u = u.
Proof.
  intro H. unfold _PyUnicode_TransformDecimalAndSpaceToASCII.
  replace (PyUnicode_IS_ASCII u) with true; [reflexivity|].
  symmetry. apply forallb_forall. apply Forall_forall. exact H.
Qed.

Lemma nonempty_all_inv (p : ascii -> bool) (s : string) :
  Spec.nonempty_all p s = true ->
  exists c cs, list_ascii_of_string s = c :: cs
               /\ Forall (fun x => p x = true) (c :: cs).
Proof.
  unfold Spec.nonempty_all.
  destruct (list_ascii_of_string s) as [|c cs] eqn:E; [discriminate|].
  intro H. exists c, cs. split; [reflexivity|].
  apply Forall_forall. apply forallb_forall. exact H.
Qed.

Lemma Forall_weaken {A} (P Q : A -> Prop) (l : list A) :
  (forall x, P x -> Q x) -> Forall P l -> Forall Q l.
Proof. intros HPQ H. induction H; constructor; auto. Qed.

(** [int(_, 16)] on [0x] followed by hex digits. *)
Lemma PyLong_FromString_hex (max : nat) (c : ascii) (cs : list ascii) :
  Forall (fun x => Spec.is_hex_digit x = true) (c :: cs) ->
  PyLong_FromString max ("0"%char :: "x"%char :: c :: cs) 16
  = inr (Spec.positional_value 16 (c :: cs)).
Proof.
  intro H.
  assert (Hc : is_underscore c = false).
  { inversion H; subst. now apply hex_digit_char. }
  unfold PyLong_FromString.
  rewrite skip_spaces_not_space by reflexivity.
  change (strip_sign ("0"%char :: "x"%char :: c :: cs))
    with (1, "0"%char :: "x"%char :: c :: cs).
  cbv beta iota.
  replace (strip_base_prefix 16 ("0"%char :: "x"%char :: c :: cs))
    with (c :: cs)
    by (unfold strip_base_prefix; change (ord "0" =? 48) with true;
        change (16 =? 16) with true; change (ord "x" =? 120) with true;
        cbn [andb orb]; rewrite Hc; reflexivity).
  rewrite Hc.
  rewrite (scan_digits_all 16 (c :: cs))
    by (eapply Forall_weaken; [|exact H]; intros x Hx;
        split; now apply hex_digit_char).
  change (is_binary_base 16) with true. cbn [negb andb map].
  cbn [skip_spaces].
  rewrite <- (digits_to_int_positional 16 (c :: cs))
    by (eapply Forall_weaken; [|exact H]; intros x Hx; now apply hex_digit_char).
  cbn [map]. rewrite Z.mul_1_l. reflexivity.
Qed.

(** [int(_, 10)] on decimal digits within the conversion limit. *)
Lemma PyLong_FromString_decimal (max : nat) (c : ascii) (cs : list ascii) :
  Forall (fun x => Spec.is_decimal_digit x = true) (c :: cs) ->
  over_limit max (List.length (c :: cs)) = false ->
  PyLong_FromString max (c :: cs) 10
  = inr (Spec.positional_value 10 (c :: cs)).
Proof.
  intros H Hlimit.
  assert (Hc : Spec.is_decimal_digit c = true) by (inversion H; assumption).
  destruct (decimal_digit_char c Hc)
    as (Hu & _ & _ & _ & Hsp & Hplus & Hminus & _).
  unfold PyLong_FromString.
  rewrite skip_spaces_not_space by assumption.
  unfold strip_sign. rewrite Hplus, Hminus.
  assert (Hprefix : strip_base_prefix 10 (c :: cs) = c :: cs).
  { unfold strip_base_prefix. destruct cs as [|c1 cs']; [reflexivity|].
    change (10 =? 16) with false. change (10 =? 8) with false.
    change (10 =? 2) with false. cbn [andb orb].
    rewrite Bool.andb_false_r. reflexivity. }
  rewrite Hprefix, Hu.
  rewrite (scan_digits_all 10 (c :: cs))
    by (eapply Forall_weaken; [|exact H]; intros x Hx;
        split; now apply decimal_digit_char).
  rewrite length_map, Hlimit, Bool.andb_false_r.
  cbn [map skip_spaces].
  rewrite <- (digits_to_int_positional 10 (c :: cs))
    by (eapply Forall_weaken; [|exact H]; intros x Hx;
        now apply decimal_digit_char).
  cbn [map]. rewrite Z.mul_1_l. reflexivity.
Qed.

(** A string of decimal digits does not start with [0x]. *)
Lemma decimal_string_not_0x (s : string) :
  Spec.is_decimal_string s = true -> startswith s "0x" = false.
Proof.
  intro H. apply nonempty_all_inv in H. destruct H as (c & cs & E & H).
  destruct s as [|a [|b s']].
  - reflexivity.
  - cbn [startswith]. apply Bool.andb_false_r.
  - simpl in E. rewrite <- E in H.
    pose proof (Forall_inv (Forall_inv_tail H)) as Hb. simpl in Hb.
    apply decimal_digit_char in Hb.
    destruct Hb as (_ & _ & _ & _ & _ & _ & _ & Hx).
    cbn [startswith].
    destruct (Ascii.eqb_spec b "x") as [->|_]; [|now rewrite !Bool.andb_false_r].
    discriminate Hx.
Qed.

(* ===================================================================== *)
(** ** The runs of [make_click_through] *)
(* ===================================================================== *)

Local Open Scope string_scope.

(** Every run, by the answers of the world: the calls made up to the first
    exception or to the end, and the line printed. *)
Lemma make_click_through_runs (I : Interp) (W : World) (window_id : value) :
  make_click_through I W window_id =
  match display_Display W with
  | inl e => ([Display_open; error_line e], inr false)
  | inr d =>
  match convert_window_id I window_id with
  | inl e => ([Display_open; error_line e], inr false)
  | inr wid =>
  match create_resource_object d "window" wid with
  | inl e =>
      ([Display_open; Create_resource_object "window" wid; error_line e],
       inr false)
  | inr _ =>
  match has_extension d "SHAPE" with
  | inl e =>
      ([Display_open; Create_resource_object "window" wid;
        Has_extension "SHAPE"; error_line e], inr false)
  | inr false =>
      ([Display_open; Create_resource_object "window" wid;
        Has_extension "SHAPE";
        Stdout "Error: X SHAPE extension not available"], inr false)
  | inr true =>
  match shape_rectangles d (empty_input_shape wid) with
  | inl e =>
      ([Display_open; Create_resource_object "window" wid;
        Has_extension "SHAPE"; Shape_rectangles (empty_input_shape wid);
        error_line e], inr false)
  | inr _ =>
  match sync d with
  | inl e =>
      ([Display_open; Create_resource_object "window" wid;
        Has_extension "SHAPE"; Shape_rectangles (empty_input_shape wid);
        Sync; error_line e], inr false)
  | inr _ =>
      ([Display_open; Create_resource_object "window" wid;
        Has_extension "SHAPE"; Shape_rectangles (empty_input_shape wid);
        Sync; Stdout (success_line wid)], inr true)
  end end end end end end.
Proof.
  unfold make_click_through, make_click_through_body, error_line.
  destruct (display_Display W) as [e|d]; [reflexivity|].
  cbn [bind call lift try_except print Run.ret app].
  destruct (convert_window_id I window_id) as [e|wid]; [reflexivity|].
  cbn [bind call lift try_except print Run.ret app].
  destruct (create_resource_object d "window" wid) as [e|[]]; [reflexivity|].
  destruct (has_extension d "SHAPE") as [e|[|]]; [reflexivity| |reflexivity].
  cbn [negb].
  destruct (shape_rectangles d (empty_input_shape wid)) as [e|[]];
    [reflexivity|].
  destruct (sync d) as [e|[]]; reflexivity.
Qed.

Lemma main_with_argument (I : Interp) (W : World) (argv : list string) :
  xlib_installed W = true ->
  (2 <= List.length argv)%nat ->
  main I W argv =
  match make_click_through I W (VStr (nth 1 argv "")) with
  | (t, inr true) => (t, 0)
  | (t, _) => (t, 1)
  end.
Proof.
  intros Hx Hlen. unfold main. rewrite Hx. cbn [negb].
  destruct (Nat.ltb_spec (List.length argv) 2) as [Hlt|_]; [lia|reflexivity].
Qed.

(** A run that exits with status 0 had its imports and its argument. *)
Lemma exit_0_inv (I : Interp) (W : World) (argv : list string) :
  exit_status (main I W argv) = 0 ->
  xlib_installed W = true /\ (2 <= List.length argv)%nat.
Proof.
  unfold main. destruct (xlib_installed W); cbn [negb].
  - destruct (Nat.ltb_spec (List.length argv) 2) as [Hlt|Hge].
    + discriminate.
    + intros _. split; [reflexivity|assumption].
  - discriminate.
Qed.

Ltac world_cases d wid :=
  repeat match goal with
  | |- context [match display_Display ?W with _ => _ end] =>
      destruct (display_Display W) as [?e|d] eqn:?
  | |- context [match convert_window_id ?I ?v with _ => _ end] =>
      destruct (convert_window_id I v) as [?e|wid] eqn:?
  | |- context [match create_resource_object ?d ?t ?w with _ => _ end] =>
      destruct (create_resource_object d t w) as [?e|[]] eqn:?
  | |- context [match has_extension ?d ?n with _ => _ end] =>
      destruct (has_extension d n) as [?e|[|]] eqn:?
  | |- context [match shape_rectangles ?d ?r with _ => _ end] =>
      destruct (shape_rectangles d r) as [?e|[]] eqn:?
  | |- context [match sync ?d with _ => _ end] =>
      destruct (sync d) as [?e|[]] eqn:?
  end.

(* ===================================================================== *)
(** ** The success path *)
(* ===================================================================== *)

(** C1: when the script exits with status 0, its trace ends with one
    [shape_rectangles] request (operation set, kind input, ordering
    YX-banded, offset (0,0), no rectangle) on the parsed window, then one
    [sync], then the confirmation line; nothing before them is a shape
    request, a sync or a printed line, so there is exactly one request and
    exactly one sync, in that order, before success is reported. *)
Theorem success_one_request_then_one_sync
  (I : Interp) (W : World) (argv : list string) :
  exit_status (main I W argv) = 0 ->
  exists wid pre,
    let request := mkShapeRequest wid SO_Set SK_Input YXBanded 0 0 [] in
    convert_window_id I (VStr (nth 1 argv "")) = inr wid
    /\ events (main I W argv)
       = (pre ++ [Shape_rectangles request; Sync; Stdout (success_line wid)])%list
    /\ shape_requests pre = []
    /\ syncs pre = 0%nat
    /\ stdout_lines pre = []
    /\ shape_requests (events (main I W argv)) = [request]
    /\ syncs (events (main I W argv)) = 1%nat.
Proof.
  intro H. destruct (exit_0_inv I W argv H) as [Hx Hlen].
  revert H. rewrite (main_with_argument I W argv Hx Hlen).
  rewrite make_click_through_runs.
  world_cases d wid; cbn [exit_status snd]; try discriminate.
  intros _.
  exists wid,
    [Display_open; Create_resource_object "window" wid; Has_extension "SHAPE"].
  cbv zeta. repeat split.
Qed.

Lemma success_one_request_then_one_sync_witness :
  let argv := ["make-click-through.py"; "0x1a2b"] in
  exit_status (main default_interp Worlds.world_ok argv) = 0
  /\ exists wid pre,
       let request := mkShapeRequest wid SO_Set SK_Input YXBanded 0 0 [] in
       convert_window_id default_interp (VStr (nth 1 argv "")) = inr wid
       /\ events (main default_interp Worlds.world_ok argv)
          = (pre ++ [Shape_rectangles request; Sync;
                     Stdout (success_line wid)])%list
       /\ shape_requests pre = []
       /\ syncs pre = 0%nat
       /\ stdout_lines pre = []
       /\ shape_requests (events (main default_interp Worlds.world_ok argv))
          = [request]
       /\ syncs (events (main default_interp Worlds.world_ok argv)) = 1%nat.
Proof.
  intro argv. split.
  - reflexivity.
  - apply (success_one_request_then_one_sync default_interp Worlds.world_ok argv).
    reflexivity.
Defined.

(** C6: with the imports and an argument present, a handle that parses, a
    display that opens and has the SHAPE extension, and a request and a sync
    that return, the script exits with status 0 and prints exactly one line,
    the confirmation with the handle as [hex] renders it; for the argument
    12345 that line contains 0x3039. *)
Theorem success_exit_0_and_confirmation
  (I : Interp) (W : World) (argv : list string) (d : Display) (wid : Z) :
  xlib_installed W = true ->
  (2 <= List.length argv)%nat ->
  convert_window_id I (VStr (nth 1 argv "")) = inr wid ->
  display_Display W = inr d ->
  create_resource_object d "window" wid = inr tt ->
  has_extension d "SHAPE" = inr true ->
  shape_rectangles d (empty_input_shape wid) = inr tt ->
  sync d = inr tt ->
  exit_status (main I W argv) = 0
  /\ stdout_lines (events (main I W argv))
     = ["Window " ++ hex wid ++ " is now click-through"]
  /\ (nth 1 argv "" = "12345" ->
      stdout_lines (events (main I W argv))
      = ["Window 0x3039 is now click-through"]).
Proof.
  intros Hx Hlen Hwid Hd Hcreate Hext Hreq Hsync.
  rewrite (main_with_argument I W argv Hx Hlen), make_click_through_runs.
  rewrite Hd, Hwid, Hcreate, Hext, Hreq, Hsync.
  cbn [exit_status events fst snd].
  split; [reflexivity|]. split; [reflexivity|].
  intro E. rewrite E in Hwid.
  assert (H12345 : convert_window_id I (VStr "12345") = inr 12345)
    by (vm_compute; reflexivity).
  rewrite H12345 in Hwid. injection Hwid as <-. reflexivity.
Qed.

Lemma success_exit_0_and_confirmation_witness :
  let argv := ["make-click-through.py"; "12345"] in
  exit_status (main default_interp Worlds.world_ok argv) = 0
  /\ stdout_lines (events (main default_interp Worlds.world_ok argv))
     = ["Window " ++ hex 12345 ++ " is now click-through"]
  /\ (nth 1 argv "" = "12345" ->
      stdout_lines (events (main default_interp Worlds.world_ok argv))
      = ["Window 0x3039 is now click-through"]).
Proof.
  intro argv.
  apply (success_exit_0_and_confirmation
           default_interp Worlds.world_ok argv Worlds.display_ok 12345);
    [reflexivity | simpl; lia | reflexivity | reflexivity | reflexivity
    | reflexivity | reflexivity | reflexivity].
Defined.

(* ===================================================================== *)
(** ** Failure paths *)
(* ===================================================================== *)

(** C2: unless the display opens and answers that SHAPE is available, every
    invocation exits with status 1 and its trace holds no shape request; the
    same holds of [make_click_through] on any value. *)
Theorem no_shape_extension_no_request (I : Interp) (W : World) :
  reports_shape W = false ->
  (forall argv,
      exit_status (main I W argv) = 1
      /\ shape_requests (events (main I W argv)) = [])
  /\ (forall window_id,
      snd (make_click_through I W window_id) = inr false
      /\ shape_requests (fst (make_click_through I W window_id)) = []).
Proof.
  intro H.
  assert (Hmct : forall window_id,
      snd (make_click_through I W window_id) = inr false
      /\ shape_requests (fst (make_click_through I W window_id)) = []).
  { intro window_id. rewrite make_click_through_runs.
    unfold reports_shape in H. revert H.
    world_cases d wid; intro H; try discriminate H; split; reflexivity. }
  split; [|exact Hmct].
  intro argv. unfold main.
  destruct (xlib_installed W); cbn [negb]; [|split; reflexivity].
  destruct (List.length argv <? 2)%nat; [split; reflexivity|].
  destruct (Hmct (VStr (nth 1 argv ""))) as [Hret Hreq].
  destruct (make_click_through I W (VStr (nth 1 argv ""))) as [t r].
  cbn [fst snd] in Hret, Hreq. subst r. cbn [exit_status events fst snd].
  split; [reflexivity|assumption].
Qed.

Lemma no_shape_extension_no_request_witness :
  reports_shape Worlds.world_no_shape = false
  /\ (forall argv,
         exit_status (main default_interp Worlds.world_no_shape argv) = 1
         /\ shape_requests
              (events (main default_interp Worlds.world_no_shape argv)) = [])
  /\ (forall window_id,
         snd (make_click_through default_interp Worlds.world_no_shape window_id)
         = inr false
         /\ shape_requests
              (fst (make_click_through default_interp Worlds.world_no_shape
                      window_id)) = []).
Proof.
  split.
  - reflexivity.
  - apply (no_shape_extension_no_request default_interp Worlds.world_no_shape).
    reflexivity.
Defined.

(** C8, as the code has it: when the [Xlib] imports succeed and [sys.argv]
    has fewer than two entries, the script prints the two usage lines, exits
    with status 1 and never opens the display. *)
Theorem missing_argument_usage (I : Interp) (W : World) (argv : list string) :
  xlib_installed W = true ->
  (List.length argv < 2)%nat ->
  main I W argv
  = ([Stdout "Usage: make-click-through.py <window_id>";
      Stdout "  window_id can be decimal or hex (0x...)"], 1)
  /\ connection_attempts (events (main I W argv)) = 0%nat.
Proof.
  intros Hx Hlen. unfold main. rewrite Hx. cbn [negb].
  destruct (Nat.ltb_spec (List.length argv) 2) as [_|Hge]; [|lia].
  split; reflexivity.
Qed.

Lemma missing_argument_usage_witness :
  let argv := ["make-click-through.py"] in
  xlib_installed Worlds.world_ok = true
  /\ (List.length argv < 2)%nat
  /\ main default_interp Worlds.world_ok argv
     = ([Stdout "Usage: make-click-through.py <window_id>";
         Stdout "  window_id can be decimal or hex (0x...)"], 1)
  /\ connection_attempts (events (main default_interp Worlds.world_ok argv))
     = 0%nat.
Proof.
  intro argv. split; [reflexivity|]. split; [simpl; lia|].
  apply (missing_argument_usage default_interp Worlds.world_ok argv);
    [reflexivity | simpl; lia].
Defined.

(** C8 as stated fails when the imports fail: the import guard of lines
    10-15 runs before the argument check, so an invocation without an
    argument prints the import error and not the usage text. *)
Lemma missing_argument_without_xlib_no_usage :
  ~ ((List.length ["make-click-through.py"] < 2)%nat ->
     stdout_lines
       (events (main default_interp Worlds.world_no_xlib
                  ["make-click-through.py"]))
     = ["Usage: make-click-through.py <window_id>";
        "  window_id can be decimal or hex (0x...)"]).
Proof.
  intro H. assert (Hlen : (List.length ["make-click-through.py"] < 2)%nat)
    by (simpl; lia).
  specialize (H Hlen). vm_compute in H. discriminate H.
Qed.

(** C10: when the [Xlib] imports raise [ImportError], every invocation,
    whatever its arguments, prints one line that starts with [Error:] and
    exits with status 1; nothing is parsed and no display is opened. *)
Theorem import_failure (I : Interp) (W : World) :
  xlib_installed W = false ->
  forall argv,
    main I W argv
    = ([Stdout "Error: python-xlib not installed. Install with: nix-shell -p python3Packages.xlib"], 1)
    /\ Forall (fun line => startswith line "Error:" = true)
              (stdout_lines (events (main I W argv)))
    /\ connection_attempts (events (main I W argv)) = 0%nat.
Proof.
  intros Hx argv. unfold main. rewrite Hx. cbn [negb].
  split; [reflexivity|]. split; [|reflexivity].
  repeat constructor.
Qed.

Lemma import_failure_witness :
  xlib_installed Worlds.world_no_xlib = false
  /\ forall argv,
       main default_interp Worlds.world_no_xlib argv
       = ([Stdout "Error: python-xlib not installed. Install with: nix-shell -p python3Packages.xlib"], 1)
       /\ Forall (fun line => startswith line "Error:" = true)
                 (stdout_lines
                    (events (main default_interp Worlds.world_no_xlib argv)))
       /\ connection_attempts
            (events (main default_interp Worlds.world_no_xlib argv)) = 0%nat.
Proof.
  split.
  - reflexivity.
  - apply (import_failure default_interp Worlds.world_no_xlib). reflexivity.
Defined.











Ltac distinct_events :=
  repeat constructor; cbn [In]; intuition discriminate.

(** Splits a concrete trace into the calls and the last event. *)
Ltac all_but_last :=
  lazymatch goal with
  | |- context [@eq trace ?t _] => exists (removelast t)
  end.

(** A run with an argument calls nothing twice and, unless it succeeds,
    ends with a line that starts with [Error: ]. *)
Lemma failing_run_reports_error (I : Interp) (W : World) (argv : list string) :
  xlib_installed W = true ->
  (2 <= List.length argv)%nat ->
  NoDup (events (main I W argv))
  /\ (exit_status (main I W argv) = 0
      \/ exit_status (main I W argv) = 1
         /\ exists calls msg,
              events (main I W argv) = (calls ++ [Stdout ("Error: " ++ msg)])%list
              /\ stdout_lines calls = []).
Proof.
  intros Hx Hlen.
  rewrite (main_with_argument I W argv Hx Hlen), make_click_through_runs.
  world_cases d wid; cbn [events exit_status fst snd]; unfold error_line;
    (split; [distinct_events|]);
    try (left; reflexivity); right; (split; [reflexivity|]);
    all_but_last; eexists; split; reflexivity.
Qed.

(** C7: whichever step of the operation raises (opening the display,
    parsing, building the resource, the capability query, the shape request
    as when the server rejects it, or the sync), the exception is caught:
    the calls made so far are followed by one printed line, [Error: ] and
    the text of the exception, the exit status is 1, and no call occurs
    twice in the trace, so nothing is retried. *)
Theorem every_exception_reported
  (I : Interp) (W : World) (argv : list string) (e : Exception) :
  xlib_installed W = true ->
  (2 <= List.length argv)%nat ->
  raised I W (VStr (nth 1 argv "")) e ->
  exit_status (main I W argv) = 1
  /\ (exists calls,
         events (main I W argv)
         = (calls ++ [Stdout ("Error: " ++ str_exc e)])%list
         /\ stdout_lines calls = [])
  /\ NoDup (events (main I W argv)).
Proof.
  intros Hx Hlen Hraised.
  split; [|split; [|exact (proj1 (failing_run_reports_error I W argv Hx Hlen))]];
    rewrite (main_with_argument I W argv Hx Hlen), make_click_through_runs;
    destruct Hraised as
      [e H1 | d e H1 H2 | d wid e H1 H2 H3 | d wid e H1 H2 H3 H4
      | d wid e H1 H2 H3 H4 H5 | d wid e H1 H2 H3 H4 H5 H6];
    repeat match goal with H : _ = _ |- _ => rewrite H; clear H end;
    try reflexivity; unfold error_line; cbn [events fst];
    all_but_last; split; reflexivity.
Qed.

Lemma every_exception_reported_witness :
  let argv := ["make-click-through.py"; "12345"] in
  raised default_interp Worlds.world_rejecting (VStr (nth 1 argv ""))
         Worlds.bad_window
  /\ exit_status (main default_interp Worlds.world_rejecting argv) = 1
  /\ (exists calls,
         events (main default_interp Worlds.world_rejecting argv)
         = (calls ++ [Stdout ("Error: " ++ str_exc Worlds.bad_window)])%list
         /\ stdout_lines calls = [])
  /\ NoDup (events (main default_interp Worlds.world_rejecting argv)).
Proof.
  intro argv.
  assert (Hraised : raised default_interp Worlds.world_rejecting
                           (VStr (nth 1 argv "")) Worlds.bad_window)
    by (apply (raised_by_shape_rectangles _ _ _ Worlds.display_rejecting 12345);
        reflexivity).
  split; [exact Hraised|].
  apply (every_exception_reported default_interp Worlds.world_rejecting argv
           Worlds.bad_window); [reflexivity | simpl; lia | exact Hraised].
Defined.

(* ===================================================================== *)
(** ** The identifier parser *)
(* ===================================================================== *)

(** C4, as the code has it: for the lower-case prefix [0x] followed by one
    or more hexadecimal digits (of either case, any number of them), parsing
    succeeds with the positional base-16 value of the digits.  The
    conversion limit of the interpreter plays no part. *)
Theorem lowercase_0x_hex_value (I : Interp) (digits : string) :
  Spec.is_hex_digits digits = true ->
  convert_window_id I (VStr ("0x" ++ digits)) = inr (Spec.hex_value digits).
Proof.
  intro H. apply nonempty_all_inv in H. destruct H as (c & cs & E & H).
  cbn [convert_window_id append startswith].
  change (Ascii.eqb "0" "0") with true. change (Ascii.eqb "x" "x") with true.
  cbn [andb]. unfold int. cbn [list_ascii_of_string]. rewrite E.
  rewrite transform_ascii.
  - rewrite PyLong_FromString_hex by exact H.
    unfold Spec.hex_value. rewrite E. reflexivity.
  - constructor; [reflexivity|]. constructor; [reflexivity|].
    eapply Forall_weaken; [|exact H]. intros x Hx. now apply hex_digit_char.
Qed.

Lemma lowercase_0x_hex_value_witness :
  Spec.is_hex_digits "1a2B" = true
  /\ convert_window_id default_interp (VStr "0x1a2B") = inr 6699
  /\ Spec.hex_value "1a2B" = 6699.
Proof.
  split; [reflexivity|]. split; [|reflexivity].
  apply (lowercase_0x_hex_value default_interp "1a2B"). reflexivity.
Defined.

(** C4 as stated fails for the upper-case prefix: [0X1A] is sent to the
    decimal parser, which rejects it. *)
Lemma uppercase_0X_rejected :
  ~ (Spec.is_hex_digits "1A" = true ->
     convert_window_id default_interp (VStr ("0X" ++ "1A"))
     = inr (Spec.hex_value "1A")).
Proof.
  intro H. specialize (H eq_refl). vm_compute in H. discriminate H.
Qed.

Lemma length_list_ascii_of_string (s : string) :
  List.length (list_ascii_of_string s) = String.length s.
Proof. induction s as [|c s IH]; simpl; congruence. Qed.

(** C5, as the code has it: for every non-empty string of decimal digits
    whose length the interpreter's conversion limit admits (no limit set, or
    at most 640 digits, or at most the limit), parsing yields the positional
    base-10 value. *)
Theorem decimal_value_within_limit (I : Interp) (s : string) :
  Spec.is_decimal_string s = true ->
  (int_max_str_digits I = 0
   \/ String.length s <= Nat.max 640 (int_max_str_digits I))%nat ->
  convert_window_id I (VStr s) = inr (Spec.decimal_value s).
Proof.
  intros H Hlimit.
  cbn [convert_window_id]. rewrite (decimal_string_not_0x s H).
  apply nonempty_all_inv in H. destruct H as (c & cs & E & H).
  unfold int, Spec.decimal_value. rewrite E.
  rewrite transform_ascii
    by (eapply Forall_weaken; [|exact H]; intros x Hx;
        now apply decimal_digit_char).
  rewrite PyLong_FromString_decimal; [reflexivity|exact H|].
  rewrite <- E, length_list_ascii_of_string.
  unfold over_limit, MAX_STR_DIGITS_THRESHOLD.
  destruct (Nat.ltb_spec 640 (String.length s)); [|reflexivity].
  destruct (Nat.ltb_spec 0 (int_max_str_digits I)); [|reflexivity].
  destruct (Nat.ltb_spec (int_max_str_digits I) (String.length s));
    [lia|reflexivity].
Qed.

Lemma decimal_value_within_limit_witness :
  Spec.is_decimal_string "12345" = true
  /\ (int_max_str_digits default_interp = 0
      \/ String.length "12345" <= Nat.max 640 (int_max_str_digits default_interp))%nat
  /\ convert_window_id default_interp (VStr "12345") = inr 12345
  /\ Spec.decimal_value "12345" = 12345.
Proof.
  assert (Hlimit : (int_max_str_digits default_interp = 0
    \/ String.length "12345" <= Nat.max 640 (int_max_str_digits default_interp))%nat)
    by (right; simpl; lia).
  split; [reflexivity|]. split; [exact Hlimit|]. split; [|reflexivity].
  apply (decimal_value_within_limit default_interp "12345");
    [reflexivity|exact Hlimit].
Defined.

(** C5 as stated fails at arbitrary width: under the interpreter's default
    limit of 4300 digits, a string of 4301 nines is rejected. *)
Lemma decimal_4301_digits_rejected :
  ~ (Spec.is_decimal_string (Worlds.nines 4301) = true ->
     convert_window_id default_interp (VStr (Worlds.nines 4301))
     = inr (Spec.decimal_value (Worlds.nines 4301))).
Proof.
  intro H.
  assert (Hdigits : Spec.is_decimal_string (Worlds.nines 4301) = true)
    by (vm_compute; reflexivity).
  specialize (H Hdigits).
  destruct (convert_window_id default_interp (VStr (Worlds.nines 4301)))
    as [e|n] eqn:E.
  - discriminate H.
  - vm_compute in E. discriminate E.
Qed.

(** C9: the parser accepts decimal strings with a sign, with surrounding
    white space or with underscores between digits, none of which is an
    identifier in the specification's sense; [-5] yields a negative handle. *)
Theorem parser_accepts_more_than_spec (I : Interp) :
  (convert_window_id I (VStr "-5") = inr (-5)
   /\ Spec.valid_identifier "-5" = false)
  /\ (convert_window_id I (VStr "+5") = inr 5
      /\ Spec.valid_identifier "+5" = false)
  /\ (convert_window_id I (VStr " 12 ") = inr 12
      /\ Spec.valid_identifier " 12 " = false)
  /\ (convert_window_id I (VStr "1_000") = inr 1000
      /\ Spec.valid_identifier "1_000" = false).
Proof.
  repeat split; vm_compute; reflexivity.
Qed.

(** The parser puts no bound on the handle: a numeral beyond 32 bits is
    accepted, and so is a hexadecimal numeral of any length. *)
Lemma wide_numerals_parse (I : Interp) :
  convert_window_id I (VStr "4294967296") = inr (2 ^ 32)
  /\ convert_window_id I (VStr "0xffffffffffffffffffffffff") = inr (2 ^ 96 - 1).
Proof. split; vm_compute; reflexivity. Qed.

(** The two parsing scenarios the usage text names. *)
Lemma usage_scenarios (I : Interp) :
  convert_window_id I (VStr "12345") = inr 12345
  /\ convert_window_id I (VStr "0x1a2b") = inr 6699
  /\ hex 12345 = "0x3039".
Proof. repeat split; vm_compute; reflexivity. Qed.

(* ===================================================================== *)
(** ** Whole runs *)
(* ===================================================================== *)

Import Behaviour.

(** X1: the exit status is 0 exactly when the imports and the argument are
    there and every step of the operation returns with the SHAPE extension
    present; in every other case it is 1. *)
Theorem exit_status_0_iff_every_step_returns
  (I : Interp) (W : World) (argv : list string) :
  (exit_status (main I W argv) = 0 <->
   xlib_installed W = true
   /\ (2 <= List.length argv)%nat
   /\ succeeds I W (VStr (nth 1 argv "")))
  /\ (exit_status (main I W argv) = 0 \/ exit_status (main I W argv) = 1).
Proof.
  split.
  - split.
    + intro H. destruct (exit_0_inv I W argv H) as [Hx Hlen].
      split; [exact Hx|]. split; [exact Hlen|].
      revert H. rewrite (main_with_argument I W argv Hx Hlen).
      rewrite make_click_through_runs. unfold succeeds.
      world_cases d wid; cbn [exit_status snd]; try discriminate.
      intros _. exists d, wid. repeat split; assumption.
    + intros (Hx & Hlen & d & wid & Hd & Hwid & Hc & Hext & Hreq & Hsync).
      rewrite (main_with_argument I W argv Hx Hlen), make_click_through_runs.
      rewrite Hd, Hwid, Hc, Hext, Hreq, Hsync. reflexivity.
  - unfold main. destruct (xlib_installed W); cbn [negb]; [|right; reflexivity].
    destruct (List.length argv <? 2)%nat; [right; reflexivity|].
    destruct (make_click_through I W (VStr (nth 1 argv ""))) as [t [e|[|]]];
      [right|left|right]; reflexivity.
Qed.

(** X2: [make_click_through] never lets an exception escape, on a string or on
    an integer: it returns a boolean, prints exactly one line, and that line
    is the last thing it does.  It returns [True] exactly when every step
    returned; then the line is the confirmation for the converted handle,
    and otherwise the line starts with [Error: ]. *)
Theorem make_click_through_returns_and_prints_once
  (I : Interp) (W : World) (window_id : value) :
  exists before line result,
    make_click_through I W window_id = ((before ++ [Stdout line])%list, inr result)
    /\ stdout_lines before = []
    /\ (result = true <-> succeeds I W window_id)
    /\ (if result
        then exists wid, convert_window_id I window_id = inr wid
                         /\ line = success_line wid
        else startswith line "Error: " = true).
Proof.
  rewrite make_click_through_runs. unfold succeeds, error_line.
  world_cases d wid;
    match goal with
    | |- exists before line result, (?t, inr ?b) = _ /\ _ =>
        exists (removelast t); eexists; exists b
    end;
    (split; [reflexivity|]); (split; [reflexivity|]); split;
    try (split; [discriminate|]);
    try (intros (d' & wid' & H1 & H2 & H3 & H4 & H5 & H6); congruence);
    try reflexivity.
  - split; [intros _|reflexivity]. exists d, wid. repeat split; assumption.
  - exists wid. split; reflexivity.
Qed.

(** X3: the calls into the binding are always an initial part of the same
    sequence (open the display, build the window object, ask for SHAPE, send
    the request, sync), cut exactly at the first step that raises or at the
    missing extension: [calls_until_stop] of them are made, for the converted
    handle.  So the display is opened exactly once and first, there is at
    most one shape request, and a sync happens only after a request. *)
Theorem calls_follow_program_order
  (I : Interp) (W : World) (window_id : value) :
  let t := fst (make_click_through I W window_id) in
  let wid := match convert_window_id I window_id with
             | inr n => n
             | inl _ => 0
             end in
  calls t = firstn (calls_until_stop I W window_id) (call_sequence wid)
  /\ (1 <= calls_until_stop I W window_id <= 5)%nat
  /\ connection_attempts t = 1%nat
  /\ (List.length (shape_requests t) <= 1)%nat
  /\ (syncs t <= List.length (shape_requests t))%nat.
Proof.
  cbv zeta. rewrite make_click_through_runs.
  unfold calls_until_stop, error_line.
  world_cases d wid; cbn; repeat split; lia.
Qed.

(** X4: a string and the integer it converts to are interchangeable: the run of
    [make_click_through] is the same on both. *)
Theorem string_and_integer_handles_agree
  (I : Interp) (W : World) (s : string) (n : Z) :
  convert_window_id I (VStr s) = inr n ->
  make_click_through I W (VStr s) = make_click_through I W (VInt n).
Proof.
  intro H. rewrite !make_click_through_runs. rewrite H. reflexivity.
Qed.

Lemma string_and_integer_handles_agree_witness :
  convert_window_id default_interp (VStr "0x1a2b") = inr 6699
  /\ make_click_through default_interp Worlds.world_ok (VStr "0x1a2b")
     = make_click_through default_interp Worlds.world_ok (VInt 6699).
Proof.
  split; [reflexivity|].
  apply (string_and_integer_handles_agree
           default_interp Worlds.world_ok "0x1a2b" 6699).
  reflexivity.
Defined.

(** Only [sys.argv[1]] is read: the program name and any further argument
    change nothing. *)
Theorem only_first_argument_is_read
  (I : Interp) (W : World) (program program' window_id : string)
  (more : list string) :
  main I W (program :: window_id :: more) = main I W [program'; window_id].
Proof.
  unfold main. destruct (xlib_installed W); reflexivity.
Qed.

(** X5: without the SHAPE extension the run stops at the capability query, by a
    plain [return False], not by an exception: the window object has
    already been built (line 31 precedes line 34), the one line printed is
    the fixed message, and neither a request nor a sync follows. *)
Theorem missing_extension_run
  (I : Interp) (W : World) (window_id : value) (d : Display) (wid : Z) :
  display_Display W = inr d ->
  convert_window_id I window_id = inr wid ->
  create_resource_object d "window" wid = inr tt ->
  has_extension d "SHAPE" = inr false ->
  make_click_through I W window_id
  = ([Display_open; Create_resource_object "window" wid;
      Has_extension "SHAPE";
      Stdout "Error: X SHAPE extension not available"], inr false)
  /\ (forall e, ~ raised I W window_id e).
Proof.
  intros Hd Hwid Hc Hext. split.
  - rewrite make_click_through_runs, Hd, Hwid, Hc, Hext. reflexivity.
  - intros e Hr. inversion Hr; congruence.
Qed.

Lemma missing_extension_run_witness :
  let window_id := VStr "12345" in
  make_click_through default_interp Worlds.world_no_shape window_id
  = ([Display_open; Create_resource_object "window" 12345;
      Has_extension "SHAPE";
      Stdout "Error: X SHAPE extension not available"], inr false)
  /\ (forall e, ~ raised default_interp Worlds.world_no_shape window_id e).
Proof.
  intro window_id.
  apply (missing_extension_run default_interp Worlds.world_no_shape window_id
           Worlds.display_no_shape 12345); reflexivity.
Defined.

(* ===================================================================== *)
(** ** More on the literals the parser reads *)
(* ===================================================================== *)

Lemma list_ascii_of_string_app (a b : string) :
  list_ascii_of_string (a ++ b)
  = (list_ascii_of_string a ++ list_ascii_of_string b)%list.
Proof. induction a as [|c a IH]; simpl; [reflexivity|now rewrite IH]. Qed.

(** What the parser sees in a C-locale white-space character. *)
Lemma space_char (c : ascii) :
  Py_ISSPACE c = true ->
  is_underscore c = false
  /\ (_PyLong_DigitValue c <? 10)%Z = false
  /\ (_PyLong_DigitValue c <? 16)%Z = false
  /\ (ord c <? 128)%Z = true
  /\ Ascii.eqb c "0" = false
  /\ Ascii.eqb c "x" = false.
Proof.
  destruct c as [[] [] [] [] [] [] [] []]; vm_compute; intro H;
    try discriminate H; repeat split; reflexivity.
Qed.

Lemma skip_spaces_app (ws rest : list ascii) :
  Forall (fun c => Py_ISSPACE c = true) ws ->
  skip_spaces (ws ++ rest) = skip_spaces rest.
Proof.
  induction 1 as [|c ws Hc _ IH]; [reflexivity|].
  cbn [app skip_spaces]. rewrite Hc. exact IH.
Qed.

Lemma skip_spaces_all (ws : list ascii) :
  Forall (fun c => Py_ISSPACE c = true) ws -> skip_spaces ws = [].
Proof.
  intro H. rewrite <- (app_nil_r ws), skip_spaces_app by exact H. reflexivity.
Qed.

(** The digit loop stops at white space or at the end of the buffer. *)
Lemma scan_digits_then_spaces (base : Z) (ds ws : list ascii) :
  Forall (fun c => is_underscore c = false
                   /\ (_PyLong_DigitValue c <? base)%Z = true) ds ->
  Forall (fun c => is_underscore c = false
                   /\ (_PyLong_DigitValue c <? base)%Z = false) ws ->
  scan_digits base (ds ++ ws) false = Some (map _PyLong_DigitValue ds, ws).
Proof.
  intros Hds Hws. induction Hds as [|c ds [Hu Hd] _ IH]; cbn [app map].
  - destruct Hws as [|w ws [Hu Hd] _]; [reflexivity|].
    cbn [scan_digits]. rewrite Hu, Hd. reflexivity.
  - cbn [scan_digits]. rewrite Hu, Hd, IH. reflexivity.
Qed.

Lemma strip_base_prefix_10 (str : list ascii) : strip_base_prefix 10 str = str.
Proof.
  unfold strip_base_prefix. destruct str as [|a [|b str']]; try reflexivity.
  change (10 =? 16)%Z with false. change (10 =? 8)%Z with false.
  change (10 =? 2)%Z with false. cbn [andb orb].
  rewrite Bool.andb_false_r. reflexivity.
Qed.

(** [int(_, 10)] on white space, an optional sign, decimal digits and white
    space: the value or the refusal of the conversion limit. *)
Lemma PyLong_FromString_decimal_padded
  (max : nat) (w1 : list ascii) (sg : sign) (c : ascii) (cs w2 : list ascii) :
  Forall (fun x => Py_ISSPACE x = true) w1 ->
  Forall (fun x => Py_ISSPACE x = true) w2 ->
  Forall (fun x => Spec.is_decimal_digit x = true) (c :: cs) ->
  PyLong_FromString max (w1 ++ sign_chars sg ++ (c :: cs) ++ w2) 10
  = if over_limit max (List.length (c :: cs))
    then inl (exceeds_limit max (List.length (c :: cs)))
    else inr (sign_factor sg * Spec.positional_value 10 (c :: cs))%Z.
Proof.
  intros Hw1 Hw2 H.
  assert (Hc : Spec.is_decimal_digit c = true) by (inversion H; assumption).
  destruct (decimal_digit_char c Hc)
    as (Hu & _ & _ & _ & Hsp & Hplus & Hminus & _).
  unfold PyLong_FromString. rewrite skip_spaces_app by exact Hw1.
  assert (Hsign : skip_spaces (sign_chars sg ++ (c :: cs) ++ w2)
                  = (sign_chars sg ++ (c :: cs) ++ w2)%list
                  /\ strip_sign (sign_chars sg ++ (c :: cs) ++ w2)
                     = (sign_factor sg, ((c :: cs) ++ w2)%list)).
  { destruct sg; cbn [sign_chars sign_string list_ascii_of_string app sign_factor].
    - rewrite skip_spaces_not_space by exact Hsp.
      unfold strip_sign. rewrite Hplus, Hminus. split; reflexivity.
    - split; reflexivity.
    - split; reflexivity. }
  destruct Hsign as [-> ->].
  rewrite strip_base_prefix_10. cbn [app]. rewrite Hu.
  change (c :: (cs ++ w2)%list) with ((c :: cs) ++ w2)%list.
  rewrite (scan_digits_then_spaces 10 (c :: cs) w2).
  - rewrite length_map. change (is_binary_base 10) with false. cbn [negb andb].
    destruct (over_limit max (List.length (c :: cs))); [reflexivity|].
    cbn [map]. rewrite skip_spaces_all by exact Hw2.
    rewrite <- (digits_to_int_positional 10 (c :: cs))
      by (eapply Forall_weaken; [|exact H]; intros x Hx;
          now apply decimal_digit_char).
    reflexivity.
  - eapply Forall_weaken; [|exact H]. intros x Hx.
    split; now apply decimal_digit_char.
  - eapply Forall_weaken; [|exact Hw2]. intros x Hx.
    split; now apply space_char.
Qed.

Lemma startswith_0x_chars (s : string) :
  startswith s "0x"
  = match list_ascii_of_string s with
    | a :: b :: _ => Ascii.eqb a "0" && Ascii.eqb b "x"
    | _ => false
    end.
Proof.
  destruct s as [|a [|b s']]; cbn [startswith list_ascii_of_string].
  - reflexivity.
  - apply Bool.andb_false_r.
  - rewrite Bool.andb_true_r. reflexivity.
Qed.

Lemma is_space_string_Forall (ws : string) :
  is_space_string ws = true ->
  Forall (fun c => Py_ISSPACE c = true) (list_ascii_of_string ws).
Proof.
  intro H. apply Forall_forall. apply forallb_forall. exact H.
Qed.

Lemma within_limit_not_over (max len : nat) :
  (max = 0 \/ len <= Nat.max 640 max)%nat -> over_limit max len = false.
Proof.
  intro H. unfold over_limit, MAX_STR_DIGITS_THRESHOLD.
  destruct (Nat.ltb_spec 640 len); [|reflexivity].
  destruct (Nat.ltb_spec 0 max); [|reflexivity].
  destruct (Nat.ltb_spec max len); [lia|reflexivity].
Qed.

Lemma beyond_limit_over (max len : nat) :
  (0 < max)%nat -> (Nat.max 640 max < len)%nat -> over_limit max len = true.
Proof.
  intros Hmax H. unfold over_limit, MAX_STR_DIGITS_THRESHOLD.
  destruct (Nat.ltb_spec 640 len); [|lia].
  destruct (Nat.ltb_spec 0 max); [|lia].
  destruct (Nat.ltb_spec max len); [reflexivity|lia].
Qed.

(** The decimal branch on white space, an optional sign, decimal digits and
    white space, as a buffer of characters. *)
Lemma convert_decimal_padded
  (I : Interp) (ws1 : string) (sg : sign) (s ws2 : string) :
  is_space_string ws1 = true ->
  is_space_string ws2 = true ->
  Spec.is_decimal_string s = true ->
  convert_window_id I (VStr (ws1 ++ sign_string sg ++ s ++ ws2))
  = match
      (if over_limit (int_max_str_digits I) (String.length s)
       then inl (exceeds_limit (int_max_str_digits I) (String.length s))
       else inr (sign_factor sg * Spec.decimal_value s)%Z)
    with
    | inr n => inr n
    | inl e =>
        inl (ValueError
               (int_error_message (ws1 ++ sign_string sg ++ s ++ ws2) 10 e))
    end.
Proof.
  intros H1 H2 H.
  apply is_space_string_Forall in H1. apply is_space_string_Forall in H2.
  apply nonempty_all_inv in H. destruct H as (c & cs & E & H).
  assert (Hc : Spec.is_decimal_digit c = true) by (inversion H; assumption).
  assert (Hchars : list_ascii_of_string (ws1 ++ sign_string sg ++ s ++ ws2)
                   = (list_ascii_of_string ws1 ++ sign_chars sg
                      ++ (c :: cs) ++ list_ascii_of_string ws2)%list)
    by (rewrite !list_ascii_of_string_app, E; reflexivity).
  cbn [convert_window_id].
  assert (H0x : startswith (ws1 ++ sign_string sg ++ s ++ ws2) "0x" = false).
  { rewrite startswith_0x_chars, Hchars.
    destruct (list_ascii_of_string ws1) as [|w ws].
    - destruct sg; cbn [sign_chars sign_string list_ascii_of_string app];
        [|reflexivity|reflexivity].
      destruct cs as [|c1 cs']; cbn [app].
      + destruct (list_ascii_of_string ws2) as [|w ws]; [reflexivity|].
        apply Forall_inv in H2. apply space_char in H2.
        destruct H2 as (_ & _ & _ & _ & _ & ->). apply Bool.andb_false_r.
      + pose proof (Forall_inv (Forall_inv_tail H)) as H1'. cbn beta in H1'.
        apply decimal_digit_char in H1'.
        destruct H1' as (_ & _ & _ & _ & _ & _ & _ & Hx).
        destruct (Ascii.eqb_spec c1 "x") as [->|_];
          [discriminate Hx|apply Bool.andb_false_r].
    - apply Forall_inv in H1. apply space_char in H1.
      destruct H1 as (_ & _ & _ & _ & Hw & _). cbn [app].
      match goal with
      | |- match ?l with _ => _ end = _ => destruct l; [reflexivity|]
      end.
      rewrite Hw. reflexivity. }
  rewrite H0x. unfold int. rewrite Hchars.
  rewrite transform_ascii.
  - rewrite PyLong_FromString_decimal_padded by assumption.
    unfold Spec.decimal_value. rewrite E.
    rewrite <- E, length_list_ascii_of_string.
    destruct (over_limit (int_max_str_digits I) (String.length s));
      rewrite ?E; reflexivity.
  - apply Forall_app. split.
    { eapply Forall_weaken; [|exact H1]. intros x Hx. now apply space_char. }
    apply Forall_app. split.
    { destruct sg; repeat constructor. }
    apply Forall_app. split.
    { eapply Forall_weaken; [|exact H]. intros x Hx.
      now apply decimal_digit_char. }
    eapply Forall_weaken; [|exact H2]. intros x Hx. now apply space_char.
Qed.

(** X6: a decimal identifier may carry a sign and be padded with white space on
    both sides: white space, then [+] or [-] or nothing, then the digits,
    then white space parses to the signed positional value of the digits,
    whenever the digits are within the conversion limit. *)
Theorem signed_padded_decimal_value
  (I : Interp) (ws1 : string) (sg : sign) (s ws2 : string) :
  is_space_string ws1 = true ->
  is_space_string ws2 = true ->
  Spec.is_decimal_string s = true ->
  (int_max_str_digits I = 0
   \/ String.length s <= Nat.max 640 (int_max_str_digits I))%nat ->
  convert_window_id I (VStr (ws1 ++ sign_string sg ++ s ++ ws2))
  = inr (sign_factor sg * Spec.decimal_value s)%Z.
Proof.
  intros H1 H2 H Hlimit.
  rewrite convert_decimal_padded by assumption.
  rewrite within_limit_not_over by exact Hlimit. reflexivity.
Qed.

Lemma signed_padded_decimal_value_witness :
  is_space_string "  " = true
  /\ is_space_string " " = true
  /\ Spec.is_decimal_string "0042" = true
  /\ (int_max_str_digits default_interp = 0
      \/ String.length "0042" <= Nat.max 640 (int_max_str_digits default_interp))%nat
  /\ convert_window_id default_interp (VStr "  -0042 ") = inr (-42)%Z.
Proof.
  assert (Hlimit : (int_max_str_digits default_interp = 0
    \/ String.length "0042" <= Nat.max 640 (int_max_str_digits default_interp))%nat)
    by (right; simpl; lia).
  split; [reflexivity|]. split; [reflexivity|]. split; [reflexivity|].
  split; [exact Hlimit|].
  apply (signed_padded_decimal_value default_interp "  " Minus "0042" " ");
    [reflexivity | reflexivity | reflexivity | exact Hlimit].
Defined.

(** X7: beyond the conversion limit a decimal identifier is refused, however it
    is signed or padded and whatever its value (leading zeros count): when a
    limit is set and the digits number more than the limit and more than
    640, the parser raises the [ValueError] that names the limit and the
    number of digits. *)
Theorem decimal_beyond_limit_rejected
  (I : Interp) (ws1 : string) (sg : sign) (s ws2 : string) :
  is_space_string ws1 = true ->
  is_space_string ws2 = true ->
  Spec.is_decimal_string s = true ->
  (0 < int_max_str_digits I)%nat ->
  (Nat.max 640 (int_max_str_digits I) < String.length s)%nat ->
  convert_window_id I (VStr (ws1 ++ sign_string sg ++ s ++ ws2))
  = inl (ValueError
           ("Exceeds the limit (" ++ str_of_nat (int_max_str_digits I)
            ++ " digits) for integer string conversion: value has "
            ++ str_of_nat (String.length s)
            ++ " digits; use sys.set_int_max_str_digits() to increase the limit")).
Proof.
  intros H1 H2 H Hmax Hlen.
  rewrite convert_decimal_padded by assumption.
  rewrite beyond_limit_over by assumption. reflexivity.
Qed.

Lemma decimal_beyond_limit_rejected_witness :
  let s := Worlds.nines 4301 in
  is_space_string "" = true
  /\ Spec.is_decimal_string s = true
  /\ (0 < int_max_str_digits default_interp)%nat
  /\ (Nat.max 640 (int_max_str_digits default_interp) < String.length s)%nat
  /\ convert_window_id default_interp (VStr ("" ++ sign_string Unsigned ++ s ++ ""))
     = inl (ValueError
              ("Exceeds the limit (" ++ str_of_nat (int_max_str_digits default_interp)
               ++ " digits) for integer string conversion: value has "
               ++ str_of_nat (String.length s)
               ++ " digits; use sys.set_int_max_str_digits() to increase the limit")).
Proof.
  intro s.
  assert (Hs : Spec.is_decimal_string s = true) by (vm_compute; reflexivity).
  assert (Hmax : (0 < int_max_str_digits default_interp)%nat)
    by (apply Nat.ltb_lt; vm_compute; reflexivity).
  assert (Hlen : (Nat.max 640 (int_max_str_digits default_interp)
                  < String.length s)%nat)
    by (apply Nat.ltb_lt; vm_compute; reflexivity).
  split; [reflexivity|]. split; [exact Hs|]. split; [exact Hmax|].
  split; [exact Hlen|].
  apply (decimal_beyond_limit_rejected default_interp "" Unsigned s "");
    [reflexivity | reflexivity | exact Hs | exact Hmax | exact Hlen].
Defined.

(** [int(_, 16)] on [0x], an optional underscore, hex digits and white
    space. *)
Lemma PyLong_FromString_hex_padded
  (max : nat) (underscore : bool) (c : ascii) (cs w2 : list ascii) :
  Forall (fun x => Spec.is_hex_digit x = true) (c :: cs) ->
  Forall (fun x => Py_ISSPACE x = true) w2 ->
  PyLong_FromString max
    ("0"%char :: "x"%char
     :: (if underscore then ["_"%char] else []) ++ (c :: cs) ++ w2) 16
  = inr (Spec.positional_value 16 (c :: cs)).
Proof.
  intros H Hw2.
  assert (Hc : is_underscore c = false).
  { inversion H; subst. now apply hex_digit_char. }
  unfold PyLong_FromString.
  rewrite skip_spaces_not_space by reflexivity.
  match goal with
  | |- context [strip_sign ?l] => change (strip_sign l) with (1%Z, l)
  end.
  cbv beta iota.
  match goal with
  | |- context [strip_base_prefix 16 ?l] =>
      replace (strip_base_prefix 16 l) with ((c :: cs) ++ w2)%list
  end.
  - cbn [app]. rewrite Hc.
    change (c :: (cs ++ w2)%list) with ((c :: cs) ++ w2)%list.
    rewrite (scan_digits_then_spaces 16 (c :: cs) w2).
    + change (is_binary_base 16) with true. cbn [negb andb map].
      rewrite skip_spaces_all by exact Hw2.
      rewrite <- (digits_to_int_positional 16 (c :: cs))
        by (eapply Forall_weaken; [|exact H]; intros x Hx;
            now apply hex_digit_char).
      cbn [map]. rewrite Z.mul_1_l. reflexivity.
    + eapply Forall_weaken; [|exact H]. intros x Hx.
      split; now apply hex_digit_char.
    + eapply Forall_weaken; [|exact Hw2]. intros x Hx.
      split; now apply space_char.
  - unfold strip_base_prefix. change (ord "0" =? 48)%Z with true.
    change (16 =? 16)%Z with true. change (ord "x" =? 120)%Z with true.
    cbn [andb orb].
    destruct underscore; cbn [app].
    + change (is_underscore "_") with true. reflexivity.
    + rewrite Hc. reflexivity.
Qed.

(** X8: after the [0x] one underscore is allowed before the digits, and white
    space after them; neither changes the value. *)
Theorem hex_with_underscore_and_trailing_space
  (I : Interp) (underscore : bool) (digits ws2 : string) :
  Spec.is_hex_digits digits = true ->
  is_space_string ws2 = true ->
  convert_window_id I
    (VStr ("0x" ++ (if underscore then "_" else "") ++ digits ++ ws2))
  = inr (Spec.hex_value digits).
Proof.
  intros H H2. apply is_space_string_Forall in H2.
  apply nonempty_all_inv in H. destruct H as (c & cs & E & H).
  cbn [convert_window_id append startswith].
  change (Ascii.eqb "0" "0") with true. change (Ascii.eqb "x" "x") with true.
  cbn [andb]. unfold int. cbn [list_ascii_of_string].
  rewrite !list_ascii_of_string_app, E.
  replace (list_ascii_of_string (if underscore then "_" else ""))
    with (if underscore then ["_"%char] else []) by (destruct underscore; reflexivity).
  rewrite transform_ascii.
  - rewrite PyLong_FromString_hex_padded by assumption.
    unfold Spec.hex_value. rewrite E. reflexivity.
  - constructor; [reflexivity|]. constructor; [reflexivity|].
    apply Forall_app. split.
    { destruct underscore; repeat constructor. }
    apply Forall_app. split.
    { eapply Forall_weaken; [|exact H]. intros x Hx. now apply hex_digit_char. }
    eapply Forall_weaken; [|exact H2]. intros x Hx. now apply space_char.
Qed.

Lemma hex_with_underscore_and_trailing_space_witness :
  Spec.is_hex_digits "1F" = true
  /\ is_space_string " " = true
  /\ convert_window_id default_interp (VStr "0x_1F ") = inr 31.
Proof.
  split; [reflexivity|]. split; [reflexivity|].
  apply (hex_with_underscore_and_trailing_space default_interp true "1F" " ");
    reflexivity.
Defined.

(* ===================================================================== *)
(** ** What an accepted argument is made of *)
(* ===================================================================== *)

Lemma skip_spaces_split (p : list ascii) :
  exists ws, p = (ws ++ skip_spaces p)%list
             /\ Forall (fun c => Py_ISSPACE c = true) ws.
Proof.
  induction p as [|c p (ws & E & Hws)]; [exists []; split; [reflexivity|constructor]|].
  cbn [skip_spaces]. destruct (Py_ISSPACE c) eqn:Hc.
  - exists (c :: ws). split; [cbn [app]; congruence|constructor; assumption].
  - exists []. split; [reflexivity|constructor].
Qed.

Lemma skip_spaces_nil_inv (p : list ascii) :
  skip_spaces p = [] -> Forall (fun c => Py_ISSPACE c = true) p.
Proof.
  intro H. destruct (skip_spaces_split p) as (ws & E & Hws).
  rewrite H, app_nil_r in E. subst p. exact Hws.
Qed.

(** What the digit loop consumed is made of digits and underscores. *)
Lemma scan_digits_consumed (base : Z) (p : list ascii) :
  forall prev ds unread,
    scan_digits base p prev = Some (ds, unread) ->
    exists consumed,
      p = (consumed ++ unread)%list
      /\ Forall (fun c => literal_char base c = true) consumed.
Proof.
  induction p as [|c p IH]; intros prev ds unread; cbn [scan_digits].
  - destruct prev; [discriminate|]. intro H. injection H as <- <-.
    exists []. split; [reflexivity|constructor].
  - destruct (is_underscore c) eqn:Hu.
    + destruct prev; [discriminate|]. intro H.
      destruct (IH _ _ _ H) as (consumed & -> & Hc).
      exists (c :: consumed). split; [reflexivity|].
      constructor; [|exact Hc].
      unfold literal_char. rewrite Hu. apply Bool.orb_true_iff. left.
      apply Bool.orb_true_r.
    + destruct (_PyLong_DigitValue c <? base)%Z eqn:Hd.
      * destruct (scan_digits base p false) as [[ds' unread']|] eqn:Hs;
          [|discriminate].
        intro H. injection H as <- <-.
        destruct (IH _ _ _ Hs) as (consumed & -> & Hc).
        exists (c :: consumed). split; [reflexivity|].
        constructor; [|exact Hc].
        unfold literal_char. rewrite Hd. apply Bool.orb_true_r.
      * destruct prev; [discriminate|]. intro H. injection H as <- <-.
        exists []. split; [reflexivity|constructor].
Qed.

Lemma space_is_literal_char (base : Z) (c : ascii) :
  Py_ISSPACE c = true -> literal_char base c = true.
Proof. intro H. unfold literal_char. rewrite H. reflexivity. Qed.

(** The buffer from the first digit on, when the parser goes on to a value. *)
Lemma scanned_buffer_chars
  (base : Z) (str : list ascii) (ds : list Z) (unread : list ascii) :
  scan_digits base str false = Some (ds, unread) ->
  skip_spaces unread = [] ->
  Forall (fun c => literal_char base c = true) str.
Proof.
  intros Hs Hu. destruct (scan_digits_consumed base str _ _ _ Hs)
    as (consumed & -> & Hc).
  apply Forall_app. split; [exact Hc|].
  eapply Forall_weaken; [|exact (skip_spaces_nil_inv unread Hu)].
  intros c H. now apply space_is_literal_char.
Qed.

(** The end of [PyLong_FromString], from the stripped buffer on. *)
Lemma parsed_buffer_chars (max : nat) (base sign : Z) (str : list ascii) (v : Z) :
  match str with
  | c :: _ =>
      if is_underscore c then inl invalid_literal
      else
        match scan_digits base str false with
        | None => inl invalid_literal
        | Some (ds, unread) =>
            let digits := List.length ds in
            if negb (is_binary_base base) && over_limit max digits
            then inl (exceeds_limit max digits)
            else
              match ds with
              | [] => inl invalid_literal
              | _ :: _ =>
                  match skip_spaces unread with
                  | [] => inr (sign * digits_to_int base ds)%Z
                  | _ :: _ => inl invalid_literal
                  end
              end
        end
  | [] => inl invalid_literal
  end = inr v ->
  Forall (fun c => literal_char base c = true) str.
Proof.
  destruct str as [|c str']; [discriminate|].
  destruct (is_underscore c); [discriminate|].
  destruct (scan_digits base (c :: str') false) as [[ds unread]|] eqn:Hs;
    [|discriminate].
  cbv zeta.
  destruct (negb (is_binary_base base) && over_limit max (List.length ds));
    [discriminate|].
  destruct ds as [|d ds']; [discriminate|].
  destruct (skip_spaces unread) eqn:Hu; [|discriminate].
  intros _. exact (scanned_buffer_chars base _ _ _ Hs Hu).
Qed.

(** Every character of a buffer [int(_, 10)] accepts is white space, a
    sign, an underscore or a decimal digit. *)
Lemma PyLong_FromString_10_chars (max : nat) (buffer : list ascii) (v : Z) :
  PyLong_FromString max buffer 10 = inr v ->
  Forall (fun c => signed_literal_char 10 c = true) buffer.
Proof.
  unfold PyLong_FromString.
  destruct (skip_spaces_split buffer) as (ws & E & Hws).
  destruct (strip_sign (skip_spaces buffer)) as [sign str] eqn:Hsign.
  rewrite strip_base_prefix_10. intro H.
  apply parsed_buffer_chars in H.
  assert (Hlit : forall c, literal_char 10 c = true ->
                           signed_literal_char 10 c = true).
  { intros c Hc. unfold signed_literal_char. rewrite Hc. reflexivity. }
  rewrite E. apply Forall_app. split.
  - eapply Forall_weaken; [|exact Hws]. intros c Hc.
    apply Hlit. now apply space_is_literal_char.
  - revert Hsign. unfold strip_sign.
    destruct (skip_spaces buffer) as [|c p].
    + intros _. constructor.
    + destruct (ord c =? 43)%Z eqn:Hplus.
      * intro Hs. injection Hs as _ <-. constructor.
        -- unfold signed_literal_char. rewrite Hplus.
           rewrite Bool.orb_true_r. reflexivity.
        -- eapply Forall_weaken; [exact Hlit|exact H].
      * destruct (ord c =? 45)%Z eqn:Hminus.
        -- intro Hs. injection Hs as _ <-. constructor.
           ++ unfold signed_literal_char. rewrite Hminus.
              apply Bool.orb_true_r.
           ++ eapply Forall_weaken; [exact Hlit|exact H].
        -- intro Hs. injection Hs as _ <-.
           eapply Forall_weaken; [exact Hlit|exact H].
Qed.

Lemma non_ascii_char (c : ascii) :
  (ord c <? 127)%Z = false ->
  (Py_UNICODE_TODECIMAL c <? 0)%Z = true
  /\ (Py_UNICODE_ISSPACE c = true ->
      ((ord c =? 133) || (ord c =? 160))%Z = true).
Proof.
  destruct c as [[] [] [] [] [] [] [] []]; vm_compute; intro H;
    try discriminate H; split; intros; congruence.
Qed.

(** The characters behind a transformed buffer: each is the character the
    parser saw, or NEL or NBSP turned into a space; nothing was cut. *)
Lemma transform_chars_inv (P : ascii -> bool) (u : list ascii) :
  P "?"%char = false ->
  Forall (fun c => P c = true) (transform_chars u) ->
  Forall (fun c => (P c || (ord c =? 133) || (ord c =? 160))%Z = true) u.
Proof.
  intro Hq. induction u as [|c u IH]; cbn [transform_chars]; [constructor|].
  destruct (ord c <? 127)%Z eqn:Hc.
  - intro H. inversion H as [|? ? Hp Hrest]; subst.
    constructor; [rewrite Hp; reflexivity|exact (IH Hrest)].
  - destruct (non_ascii_char c Hc) as [Hdec Hspace].
    destruct (Py_UNICODE_ISSPACE c).
    + intro H. inversion H as [|? ? _ Hrest]; subst.
      constructor; [|exact (IH Hrest)].
      specialize (Hspace eq_refl). rewrite <- Bool.orb_assoc, Hspace.
      apply Bool.orb_true_r.
    + cbv zeta. rewrite Hdec. intro H. apply Forall_inv in H. congruence.
Qed.

Lemma transform_inv (P : ascii -> bool) (u : list ascii) :
  P "?"%char = false ->
  Forall (fun c => P c = true)
         (_PyUnicode_TransformDecimalAndSpaceToASCII u) ->
  Forall (fun c => (P c || (ord c =? 133) || (ord c =? 160))%Z = true) u.
Proof.
  intro Hq. unfold _PyUnicode_TransformDecimalAndSpaceToASCII.
  destruct (PyUnicode_IS_ASCII u).
  - intro H. eapply Forall_weaken; [|exact H]. intros c Hc.
    cbv beta in Hc. rewrite Hc. reflexivity.
  - now apply transform_chars_inv.
Qed.

Lemma decimal_literal_char_spec (c : ascii) :
  (signed_literal_char 10 c || (ord c =? 133) || (ord c =? 160))%Z
  = decimal_literal_char c.
Proof. destruct c as [[] [] [] [] [] [] [] []]; vm_compute; reflexivity. Qed.

Lemma hex_literal_char_spec (c : ascii) :
  (literal_char 16 c || (ord c =? 133) || (ord c =? 160))%Z
  = hex_literal_char c.
Proof. destruct c as [[] [] [] [] [] [] [] []]; vm_compute; reflexivity. Qed.

(** X9: an argument that does not start with [0x] and is accepted is made only
    of decimal digits, underscores, signs and white space: one character
    outside this set (a letter, the [x] of a misplaced or upper-case prefix,
    a dot) is enough for the parser to raise. *)
Theorem accepted_decimal_argument_chars (I : Interp) (s : string) (n : Z) :
  startswith s "0x" = false ->
  convert_window_id I (VStr s) = inr n ->
  forallb decimal_literal_char (list_ascii_of_string s) = true.
Proof.
  intros H0x. cbn [convert_window_id]. rewrite H0x. unfold int.
  destruct (PyLong_FromString (int_max_str_digits I)
              (_PyUnicode_TransformDecimalAndSpaceToASCII
                 (list_ascii_of_string s)) 10) as [e|v] eqn:Hp;
    [discriminate|].
  intros _. apply PyLong_FromString_10_chars in Hp.
  apply (transform_inv (signed_literal_char 10)) in Hp; [|reflexivity].
  apply forallb_forall. apply Forall_forall.
  eapply Forall_weaken; [|exact Hp]. intros c Hc. cbv beta in Hc.
  rewrite <- decimal_literal_char_spec. exact Hc.
Qed.

Lemma accepted_decimal_argument_chars_witness :
  startswith " -1_000 " "0x" = false
  /\ convert_window_id default_interp (VStr " -1_000 ") = inr (-1000)%Z
  /\ forallb decimal_literal_char (list_ascii_of_string " -1_000 ") = true.
Proof.
  split; [reflexivity|]. split; [reflexivity|].
  apply (accepted_decimal_argument_chars default_interp " -1_000 " (-1000));
    reflexivity.
Defined.

(** Every character of the buffer after a stripped [0x]. *)
Lemma PyLong_FromString_0x_chars (max : nat) (rest : list ascii) (v : Z) :
  PyLong_FromString max ("0"%char :: "x"%char :: rest) 16 = inr v ->
  Forall (fun c => literal_char 16 c = true) rest.
Proof.
  unfold PyLong_FromString.
  rewrite skip_spaces_not_space by reflexivity.
  change (strip_sign ("0"%char :: "x"%char :: rest))
    with (1%Z, "0"%char :: "x"%char :: rest).
  cbv beta iota.
  unfold strip_base_prefix. change (ord "0" =? 48)%Z with true.
  change (16 =? 16)%Z with true. change (ord "x" =? 120)%Z with true.
  cbn [andb orb].
  destruct rest as [|u rest']; [discriminate|].
  destruct (is_underscore u) eqn:Hu.
  - intro H. constructor.
    + unfold literal_char. rewrite Hu. apply Bool.orb_true_iff. left.
      apply Bool.orb_true_r.
    + exact (parsed_buffer_chars max 16 1 rest' v H).
  - intro H. exact (parsed_buffer_chars max 16 1 (u :: rest') v H).
Qed.

(** X10: in an accepted argument that starts with [0x], what follows the prefix
    is made only of hexadecimal digits, underscores and white space; no
    sign and no second prefix can appear. *)
Theorem accepted_hex_argument_chars (I : Interp) (rest : string) (n : Z) :
  convert_window_id I (VStr ("0x" ++ rest)) = inr n ->
  forallb hex_literal_char (list_ascii_of_string rest) = true.
Proof.
  cbn [convert_window_id append startswith].
  change (Ascii.eqb "0" "0") with true. change (Ascii.eqb "x" "x") with true.
  cbn [andb]. unfold int. cbn [list_ascii_of_string].
  unfold _PyUnicode_TransformDecimalAndSpaceToASCII.
  assert (Hq : forall r,
    Forall (fun c => (literal_char 16 c || (ord c =? 133) || (ord c =? 160))%Z
                     = true) r ->
    forallb hex_literal_char r = true).
  { intros r Hr. apply forallb_forall. apply Forall_forall.
    eapply Forall_weaken; [|exact Hr]. intros c Hc. cbv beta in Hc.
    rewrite <- hex_literal_char_spec. exact Hc. }
  destruct (PyUnicode_IS_ASCII
              ("0"%char :: "x"%char :: list_ascii_of_string rest)).
  - destruct (PyLong_FromString _ _ 16) as [e|v] eqn:Hp; [discriminate|].
    intros _. apply PyLong_FromString_0x_chars in Hp. apply Hq.
    eapply Forall_weaken; [|exact Hp]. intros c Hc. cbv beta in Hc.
    rewrite Hc. reflexivity.
  - change (transform_chars ("0"%char :: "x"%char :: list_ascii_of_string rest))
      with ("0"%char :: "x"%char :: transform_chars (list_ascii_of_string rest)).
    destruct (PyLong_FromString _ _ 16) as [e|v] eqn:Hp; [discriminate|].
    intros _. apply PyLong_FromString_0x_chars in Hp. apply Hq.
    apply transform_chars_inv; [reflexivity|exact Hp].
Qed.

Lemma accepted_hex_argument_chars_witness :
  convert_window_id default_interp (VStr ("0x" ++ "_1a_2B ")) = inr 6699
  /\ forallb hex_literal_char (list_ascii_of_string "_1a_2B ") = true.
Proof.
  split; [reflexivity|].
  apply (accepted_hex_argument_chars default_interp "_1a_2B " 6699).
  reflexivity.
Defined.

(* ===================================================================== *)
(** ** The prefix, and the handle the confirmation prints *)
(* ===================================================================== *)

Lemma space_below_127 (c : ascii) :
  Py_ISSPACE c = true -> (ord c <? 127)%Z = true.
Proof.
  destruct c as [[] [] [] [] [] [] [] []]; vm_compute; intro H;
    try discriminate H; reflexivity.
Qed.

Lemma transform_chars_app (a b : list ascii) :
  Forall (fun c => (ord c <? 127)%Z = true) a ->
  transform_chars (a ++ b) = (a ++ transform_chars b)%list.
Proof.
  induction 1 as [|c a Hc _ IH]; [reflexivity|].
  cbn [app transform_chars]. rewrite Hc, IH. reflexivity.
Qed.

Lemma list_ascii_of_string_nil (s : string) :
  list_ascii_of_string s = [] -> s = "".
Proof. destruct s; [reflexivity|discriminate]. Qed.

(** The prefix is recognised only in lower case and only at the very start:
    after white space or a sign, or written [0X], the argument goes to the
    decimal parser, which stops at the [x]. *)
Lemma convert_misplaced_prefix
  (I : Interp) (ws1 : string) (sg : sign) (upper : bool) (rest : string) :
  is_space_string ws1 = true ->
  ws1 <> "" \/ sg <> Unsigned \/ upper = true ->
  convert_window_id I
    (VStr (ws1 ++ sign_string sg ++ (if upper then "0X" else "0x") ++ rest))
  = inl (ValueError
           (int_error_message
              (ws1 ++ sign_string sg ++ (if upper then "0X" else "0x") ++ rest)
              10 invalid_literal)).
Proof.
  intros H1 Hwhere. apply is_space_string_Forall in H1.
  set (s := ws1 ++ sign_string sg ++ (if upper then "0X" else "0x") ++ rest).
  set (x := if upper then "X"%char else "x"%char).
  assert (Hchars : list_ascii_of_string s
                   = ((list_ascii_of_string ws1 ++ sign_chars sg)
                      ++ "0"%char :: x :: list_ascii_of_string rest)%list).
  { unfold s, x. rewrite !list_ascii_of_string_app, <- app_assoc.
    destruct upper; reflexivity. }
  assert (H0x : startswith s "0x" = false).
  { rewrite startswith_0x_chars, Hchars.
    destruct (list_ascii_of_string ws1) as [|w ws] eqn:Ews.
    - apply list_ascii_of_string_nil in Ews.
      destruct sg; [|reflexivity|reflexivity].
      destruct upper; [reflexivity|].
      destruct Hwhere as [Hw|[Hs|Hu]]; [contradiction|contradiction|discriminate].
    - apply Forall_inv in H1. apply space_char in H1.
      destruct H1 as (_ & _ & _ & _ & Hw & _). cbn [app].
      match goal with
      | |- match ?l with _ => _ end = _ => destruct l; [reflexivity|]
      end.
      rewrite Hw. reflexivity. }
  cbn [convert_window_id]. rewrite H0x. unfold int. rewrite Hchars.
  assert (Hbuffer : exists r',
    _PyUnicode_TransformDecimalAndSpaceToASCII
      ((list_ascii_of_string ws1 ++ sign_chars sg)
       ++ "0"%char :: x :: list_ascii_of_string rest)
    = (list_ascii_of_string ws1
       ++ sign_chars sg ++ "0"%char :: x :: r')%list).
  { unfold _PyUnicode_TransformDecimalAndSpaceToASCII.
    destruct (PyUnicode_IS_ASCII _).
    - exists (list_ascii_of_string rest). now rewrite <- app_assoc.
    - exists (transform_chars (list_ascii_of_string rest)).
      rewrite transform_chars_app.
      + rewrite <- app_assoc. unfold x. destruct upper; reflexivity.
      + apply Forall_app. split.
        * eapply Forall_weaken; [|exact H1]. intros c Hc.
          now apply space_below_127.
        * destruct sg; repeat constructor. }
  destruct Hbuffer as [r' ->].
  replace (PyLong_FromString (int_max_str_digits I)
             (list_ascii_of_string ws1
              ++ sign_chars sg ++ "0"%char :: x :: r') 10)
    with (@inl int_error Z invalid_literal); [reflexivity|].
  unfold PyLong_FromString. rewrite skip_spaces_app by exact H1.
  unfold x. destruct sg, upper; reflexivity.
Qed.

(** X11: a hexadecimal argument is recognised only when the lower-case [0x]
    comes first: with white space or a sign before the prefix, or with the
    prefix written [0X], the parser raises, whatever follows. *)
Theorem misplaced_or_uppercase_prefix_rejected
  (I : Interp) (ws1 : string) (sg : sign) (upper : bool) (rest : string) :
  is_space_string ws1 = true ->
  ws1 <> "" \/ sg <> Unsigned \/ upper = true ->
  convert_window_id I
    (VStr (ws1 ++ sign_string sg ++ (if upper then "0X" else "0x") ++ rest))
  = inl (ValueError
           (int_error_message
              (ws1 ++ sign_string sg ++ (if upper then "0X" else "0x") ++ rest)
              10 invalid_literal)).
Proof. exact (convert_misplaced_prefix I ws1 sg upper rest). Qed.

Lemma misplaced_or_uppercase_prefix_rejected_witness :
  is_space_string " " = true
  /\ (" " <> "" \/ Plus <> Unsigned \/ false = true)
  /\ convert_window_id default_interp (VStr " +0x1f")
     = inl (ValueError "invalid literal for int() with base 10: ' +0x1f'").
Proof.
  assert (Hwhere : " " <> "" \/ Plus <> Unsigned \/ false = true)
    by (left; discriminate).
  split; [reflexivity|]. split; [exact Hwhere|].
  apply (misplaced_or_uppercase_prefix_rejected
           default_interp " " Plus false "1f"); [reflexivity|exact Hwhere].
Defined.

(** [hex] writes hexadecimal digits only. *)
Lemma of_pos_hex_digits (n : nat) :
  forall (p : positive) (rest : string),
    (Pos.size_nat p <= n)%nat ->
    forallb Spec.is_hex_digit (list_ascii_of_string (HexString.Raw.of_pos p rest))
    = forallb Spec.is_hex_digit (list_ascii_of_string rest).
Proof.
  induction n as [|n IH]; intros p rest Hsize.
  - destruct p; simpl in Hsize; lia.
  - do 4 try destruct p as [p|p|]; cbn [HexString.Raw.of_pos];
      try (rewrite IH by (simpl in Hsize |- *; lia)); reflexivity.
Qed.

(** The Standard Library's reading of hex digits is the Horner sum. *)
Lemma to_N_horner (s : string) :
  forall acc : N,
    forallb Spec.is_hex_digit (list_ascii_of_string s) = true ->
    Z.of_N (HexString.Raw.to_N s acc)
    = fold_left (fun a d => a * 16 + d)%Z
        (map Spec.digit_value (list_ascii_of_string s)) (Z.of_N acc).
Proof.
  induction s as [|c s IH]; intros acc H; 
    cbn [HexString.Raw.to_N list_ascii_of_string map fold_left].
  - reflexivity.
  - cbn [list_ascii_of_string forallb] in H. apply andb_prop in H.
    destruct H as [Hc Hs].
    rewrite IH by exact Hs. f_equal.
    unfold Spec.is_hex_digit in Hc. unfold Spec.digit_value.
    destruct (HexString.ascii_to_digit c); [|discriminate]. lia.
Qed.

(** The digits [hex] writes for a positive number, and their value. *)
Lemma of_pos_value (p : positive) :
  exists c cs,
    list_ascii_of_string (HexString.Raw.of_pos p "") = c :: cs
    /\ Forall (fun x => Spec.is_hex_digit x = true) (c :: cs)
    /\ Spec.positional_value 16 (c :: cs) = Z.pos p.
Proof.
  assert (Hd : forallb Spec.is_hex_digit
                 (list_ascii_of_string (HexString.Raw.of_pos p "")) = true)
    by (rewrite (of_pos_hex_digits (Pos.size_nat p)) by lia; reflexivity).
  pose proof (to_N_horner (HexString.Raw.of_pos p "") 0%N Hd) as Hv.
  rewrite HexString.Raw.to_N_of_pos in Hv. cbn [HexString.Raw.to_N] in Hv.
  assert (HF : Forall (fun x => Spec.is_hex_digit x = true)
                 (list_ascii_of_string (HexString.Raw.of_pos p "")))
    by (apply Forall_forall; apply forallb_forall; exact Hd).
  destruct (list_ascii_of_string (HexString.Raw.of_pos p "")) as [|c cs] eqn:E.
  - cbn in Hv. discriminate Hv.
  - exists c, cs. split; [reflexivity|]. split; [exact HF|].
    rewrite <- (digits_to_int_positional 16 (c :: cs))
      by (eapply Forall_weaken; [|exact HF]; intros x Hx;
          now apply hex_digit_char).
    unfold digits_to_int.
    replace (map _PyLong_DigitValue (c :: cs))
      with (map Spec.digit_value (c :: cs)).
    + change (Z.of_N 0) with 0%Z in Hv. rewrite <- Hv. reflexivity.
    + apply map_ext_Forall. eapply Forall_weaken; [|exact HF].
      intros x Hx. symmetry. now apply hex_digit_char.
Qed.

(** The lower-case prefix followed by hex digits, on the characters. *)
Lemma convert_0x_digits (I : Interp) (digits : string) (c : ascii) (cs : list ascii) :
  list_ascii_of_string digits = c :: cs ->
  Forall (fun x => Spec.is_hex_digit x = true) (c :: cs) ->
  convert_window_id I (VStr ("0x" ++ digits))
  = inr (Spec.positional_value 16 (c :: cs)).
Proof.
  intros E H.
  cbn [convert_window_id append startswith].
  change (Ascii.eqb "0" "0") with true. change (Ascii.eqb "x" "x") with true.
  cbn [andb]. unfold int. cbn [list_ascii_of_string]. rewrite E.
  rewrite transform_ascii.
  - rewrite PyLong_FromString_hex by exact H. reflexivity.
  - constructor; [reflexivity|]. constructor; [reflexivity|].
    eapply Forall_weaken; [|exact H]. intros x Hx. now apply hex_digit_char.
Qed.

(** X12: the handle the confirmation line shows can be fed back: for a handle
    that is not negative, [hex] of it converts to the same handle, under
    every interpreter setting.  For a negative handle [hex] writes the sign
    before the prefix, and that text is rejected. *)
Theorem printed_handle_round_trip (I : Interp) (n : Z) :
  convert_window_id I (VStr (hex n))
  = if (0 <=? n)%Z then inr n
    else inl (ValueError (int_error_message (hex n) 10 invalid_literal)).
Proof.
  destruct n as [|p|p].
  - vm_compute. reflexivity.
  - change (0 <=? Z.pos p)%Z with true. cbv iota.
    destruct (of_pos_value p) as (c & cs & E & H & Hv).
    change (hex (Z.pos p)) with ("0x" ++ HexString.Raw.of_pos p "").
    rewrite (convert_0x_digits I _ c cs E H), Hv. reflexivity.
  - change (0 <=? Z.neg p)%Z with false. cbv iota.
    change (hex (Z.neg p))
      with ("" ++ sign_string Minus ++ (if false then "0X" else "0x")
            ++ HexString.Raw.of_pos p "").
    apply convert_misplaced_prefix; [reflexivity|].
    right. left. discriminate.
Qed.

(* ===================================================================== *)
(** ** Underscores between digits *)
(* ===================================================================== *)

(** The digit loop reads a run of digits whatever came before it. *)
Lemma scan_digits_run (base : Z) (g tail : list ascii) (prev : bool) :
  g <> [] ->
  Forall (fun c => is_underscore c = false
                   /\ (_PyLong_DigitValue c <? base)%Z = true) g ->
  scan_digits base (g ++ tail) prev
  = match scan_digits base tail false with
    | Some (ds, unread) => Some ((map _PyLong_DigitValue g ++ ds)%list, unread)
    | None => None
    end.
Proof.
  intros Hne H. revert prev.
  induction H as [|c g [Hu Hd] Hg IH]; [contradiction|]. intro prev.
  cbn [app scan_digits map]. rewrite Hu, Hd.
  destruct g as [|c' g'].
  - cbn [app map]. destruct (scan_digits base tail false) as [[ds unread]|];
      reflexivity.
  - rewrite IH by discriminate.
    destruct (scan_digits base tail false) as [[ds unread]|]; reflexivity.
Qed.

(** Groups of digits joined by single underscores are read as one run. *)
Lemma scan_digits_groups (base : Z) (groups : list (list ascii)) :
  groups <> [] ->
  Forall (fun g => g <> []
                   /\ Forall (fun c => is_underscore c = false
                                /\ (_PyLong_DigitValue c <? base)%Z = true) g)
         groups ->
  forall prev,
    scan_digits base (join_chars groups) prev
    = Some (map _PyLong_DigitValue (List.concat groups), []).
Proof.
  intros Hne H. induction H as [|g groups [Hg Hd] Hrest IH]; [contradiction|].
  intro prev. destruct groups as [|g2 groups'].
  - cbn [join_chars List.concat]. rewrite app_nil_r.
    rewrite <- (app_nil_r g) at 1.
    rewrite (scan_digits_run base g [] prev Hg Hd).
    cbn [scan_digits]. rewrite app_nil_r. reflexivity.
  - specialize (IH ltac:(discriminate)).
    change (join_chars (g :: g2 :: groups'))
      with (g ++ "_"%char :: join_chars (g2 :: groups'))%list.
    rewrite (scan_digits_run base g _ prev Hg Hd).
    cbn [scan_digits]. change (is_underscore "_") with true. cbv iota.
    rewrite (IH true). cbn [List.concat]. rewrite !map_app. reflexivity.
Qed.

Lemma join_chars_Forall (P : ascii -> Prop) (groups : list (list ascii)) :
  P "_"%char ->
  Forall (Forall P) groups ->
  Forall P (join_chars groups).
Proof.
  intros Hu H. induction H as [|g groups Hg Hrest IH]; [constructor|].
  destruct groups as [|g2 groups']; [exact Hg|].
  change (join_chars (g :: g2 :: groups'))
    with (g ++ "_"%char :: join_chars (g2 :: groups'))%list.
  apply Forall_app. split; [exact Hg|]. constructor; assumption.
Qed.

Lemma join_chars_head (c : ascii) (g : list ascii) (groups : list (list ascii)) :
  exists rest, join_chars ((c :: g) :: groups) = c :: rest.
Proof.
  destruct groups as [|g2 groups'].
  - exists g. reflexivity.
  - exists (g ++ "_"%char :: join_chars (g2 :: groups'))%list. reflexivity.
Qed.

Lemma join_underscore_chars (groups : list string) :
  list_ascii_of_string (join_underscore groups)
  = join_chars (map list_ascii_of_string groups).
Proof.
  induction groups as [|g groups IH]; [reflexivity|].
  destruct groups as [|g2 groups']; [reflexivity|].
  change (join_underscore (g :: g2 :: groups'))
    with (g ++ "_" ++ join_underscore (g2 :: groups')).
  rewrite !list_ascii_of_string_app, IH. reflexivity.
Qed.

Lemma concat_groups_chars (groups : list string) :
  list_ascii_of_string (concat_groups groups)
  = List.concat (map list_ascii_of_string groups).
Proof.
  induction groups as [|g groups IH]; [reflexivity|].
  cbn [concat_groups fold_right map List.concat].
  rewrite list_ascii_of_string_app. f_equal. exact IH.
Qed.

(** [int(_, 10)] on groups of decimal digits joined by underscores. *)
Lemma PyLong_FromString_decimal_groups
  (max : nat) (groups : list (list ascii)) :
  groups <> [] ->
  Forall (fun g => g <> []
                   /\ Forall (fun c => Spec.is_decimal_digit c = true) g)
         groups ->
  over_limit max (List.length (List.concat groups)) = false ->
  PyLong_FromString max (join_chars groups) 10
  = inr (Spec.positional_value 10 (List.concat groups)).
Proof.
  intros Hne H Hlimit.
  destruct groups as [|[|c g] groups']; [contradiction| |].
  { destruct (Forall_inv H) as [Hg _]. contradiction. }
  assert (Hc : Spec.is_decimal_digit c = true).
  { destruct (Forall_inv H) as [_ Hg]. exact (Forall_inv Hg). }
  destruct (decimal_digit_char c Hc)
    as (Hu & _ & _ & _ & Hsp & Hplus & Hminus & _).
  assert (Hscan : forall prev,
    scan_digits 10 (join_chars ((c :: g) :: groups')) prev
    = Some (map _PyLong_DigitValue (List.concat ((c :: g) :: groups')), [])).
  { apply scan_digits_groups; [discriminate|].
    eapply Forall_weaken; [|exact H]. intros x [Hx Hd]. split; [exact Hx|].
    eapply Forall_weaken; [|exact Hd]. intros y Hy.
    split; now apply decimal_digit_char. }
  assert (Hvalue :
    digits_to_int 10
      (map _PyLong_DigitValue (List.concat ((c :: g) :: groups')))
    = Spec.positional_value 10 (List.concat ((c :: g) :: groups'))).
  { apply digits_to_int_positional. apply Forall_concat.
    eapply Forall_weaken; [|exact H]. intros x [_ Hd].
    eapply Forall_weaken; [|exact Hd]. intros y Hy.
    now apply decimal_digit_char. }
  revert Hscan Hvalue Hlimit.
  destruct (join_chars_head c g groups') as [rest ->].
  set (all := List.concat ((c :: g) :: groups')).
  intros Hscan Hvalue Hlimit.
  unfold PyLong_FromString.
  rewrite skip_spaces_not_space by exact Hsp.
  unfold strip_sign. rewrite Hplus, Hminus.
  rewrite strip_base_prefix_10, Hu, (Hscan false).
  rewrite length_map, Hlimit, Bool.andb_false_r.
  unfold all at 1. cbn [List.concat app map]. cbn [skip_spaces].
  fold (List.concat groups').
  change (_PyLong_DigitValue c
          :: map _PyLong_DigitValue (g ++ List.concat groups')%list)
    with (map _PyLong_DigitValue all).
  rewrite Hvalue, Z.mul_1_l. reflexivity.
Qed.

Lemma decimal_groups_chars (groups : list string) :
  forallb Spec.is_decimal_string groups = true ->
  Forall (fun g => g <> []
                   /\ Forall (fun c => Spec.is_decimal_digit c = true) g)
         (map list_ascii_of_string groups).
Proof.
  intro H. apply Forall_map. apply Forall_forall. intros g Hg.
  pose proof (proj1 (forallb_forall _ _) H g Hg) as Hd.
  apply nonempty_all_inv in Hd. destruct Hd as (c & cs & E & Hcs).
  rewrite E. split; [discriminate|exact Hcs].
Qed.

(** X13: single underscores between groups of decimal digits are ignored: the
    groups joined by underscores parse to the value of the digits written
    together.  Only the digits count towards the conversion limit. *)
Theorem underscore_groups_value (I : Interp) (groups : list string) :
  groups <> [] ->
  forallb Spec.is_decimal_string groups = true ->
  (int_max_str_digits I = 0
   \/ String.length (concat_groups groups)
      <= Nat.max 640 (int_max_str_digits I))%nat ->
  convert_window_id I (VStr (join_underscore groups))
  = inr (Spec.decimal_value (concat_groups groups)).
Proof.
  intros Hne H Hlimit.
  pose proof (decimal_groups_chars groups H) as Hgroups.
  assert (HneL : map list_ascii_of_string groups <> [])
    by (destruct groups; [contradiction|discriminate]).
  assert (Hall : forall P : ascii -> Prop,
    P "_"%char ->
    (forall c, Spec.is_decimal_digit c = true -> P c) ->
    Forall P (list_ascii_of_string (join_underscore groups))).
  { intros P Hu Hd. rewrite join_underscore_chars.
    apply join_chars_Forall; [exact Hu|].
    eapply Forall_weaken; [|exact Hgroups]. intros g [_ Hg].
    eapply Forall_weaken; [|exact Hg]. exact Hd. }
  assert (H0x : startswith (join_underscore groups) "0x" = false).
  { rewrite startswith_0x_chars.
    assert (Hx : Forall (fun c => Ascii.eqb c "x" = false)
                   (list_ascii_of_string (join_underscore groups))).
    { apply Hall; [reflexivity|]. intros c Hc.
      apply decimal_digit_char in Hc.
      destruct Hc as (_ & _ & _ & _ & _ & _ & _ & Hc).
      destruct (Ascii.eqb_spec c "x") as [->|_];
        [discriminate Hc|reflexivity]. }
    destruct (list_ascii_of_string (join_underscore groups)) as [|a [|b l]];
      try reflexivity.
    rewrite (Forall_inv (Forall_inv_tail Hx)). apply Bool.andb_false_r. }
  cbn [convert_window_id]. rewrite H0x. unfold int.
  rewrite transform_ascii
    by (apply Hall; [reflexivity|]; intros c Hc; now apply decimal_digit_char).
  rewrite join_underscore_chars.
  rewrite PyLong_FromString_decimal_groups; [|exact HneL|exact Hgroups|].
  - unfold Spec.decimal_value. rewrite concat_groups_chars. reflexivity.
  - rewrite <- concat_groups_chars, length_list_ascii_of_string.
    now apply within_limit_not_over.
Qed.

Lemma underscore_groups_value_witness :
  let groups := ["4"; "294"; "967"; "295"] in
  groups <> []
  /\ forallb Spec.is_decimal_string groups = true
  /\ (int_max_str_digits default_interp = 0
      \/ String.length (concat_groups groups)
         <= Nat.max 640 (int_max_str_digits default_interp))%nat
  /\ convert_window_id default_interp (VStr "4_294_967_295") = inr 4294967295.
Proof.
  intro groups.
  assert (Hne : groups <> []) by discriminate.
  assert (Hlimit : (int_max_str_digits default_interp = 0
      \/ String.length (concat_groups groups)
         <= Nat.max 640 (int_max_str_digits default_interp))%nat)
    by (right; simpl; lia).
  split; [exact Hne|]. split; [reflexivity|]. split; [exact Hlimit|].
  apply (underscore_groups_value default_interp groups);
    [exact Hne | reflexivity | exact Hlimit].
Defined.

(* ===================================================================== *)
(** ** The limit and the hexadecimal branch; what the printed line tells *)
(* ===================================================================== *)

Lemma PyLong_FromString_16_any_limit (max max' : nat) (buffer : list ascii) :
  PyLong_FromString max buffer 16 = PyLong_FromString max' buffer 16.
Proof. reflexivity. Qed.

(** X14: an argument that starts with [0x] converts to the same handle, or fails
    with the same error, under every setting of the conversion limit. *)
Theorem hex_branch_ignores_limit (I I' : Interp) (s : string) :
  startswith s "0x" = true ->
  convert_window_id I (VStr s) = convert_window_id I' (VStr s).
Proof.
  intro H. cbn [convert_window_id]. rewrite H. unfold int.
  rewrite (PyLong_FromString_16_any_limit
             (int_max_str_digits I) (int_max_str_digits I')).
  reflexivity.
Qed.

Lemma hex_branch_ignores_limit_witness :
  let s := "0x" ++ string_of_list_ascii (repeat "f"%char 5000) in
  startswith s "0x" = true
  /\ convert_window_id default_interp (VStr s)
     = convert_window_id (mkInterp 0) (VStr s).
Proof.
  intro s. split; [reflexivity|].
  apply (hex_branch_ignores_limit default_interp (mkInterp 0) s). reflexivity.
Defined.

(** X15: the one line [make_click_through] prints tells which way the run went,
    and nothing else is ever printed: it is the confirmation when every
    step returned, the fixed message when the display answered that SHAPE is
    missing, and otherwise [Error: ] followed by the text of an exception
    that some step raised. *)
Theorem printed_line_explains_outcome
  (I : Interp) (W : World) (window_id : value) :
  exists line,
    stdout_lines (fst (make_click_through I W window_id)) = [line]
    /\ ((succeeds I W window_id
         /\ exists wid, convert_window_id I window_id = inr wid
                        /\ line = success_line wid)
        \/ ((exists d wid,
               display_Display W = inr d
               /\ convert_window_id I window_id = inr wid
               /\ create_resource_object d "window" wid = inr tt
               /\ has_extension d "SHAPE" = inr false)
            /\ line = "Error: X SHAPE extension not available")
        \/ (exists e, raised I W window_id e
                      /\ line = "Error: " ++ str_exc e)).
Proof.
  rewrite make_click_through_runs. unfold succeeds, error_line.
  destruct (display_Display W) as [e|d] eqn:Hd.
  { eexists. split; [reflexivity|]. right. right. exists e.
    split; [now apply raised_by_Display|reflexivity]. }
  destruct (convert_window_id I window_id) as [e|wid] eqn:Hwid.
  { eexists. split; [reflexivity|]. right. right. exists e.
    split; [now apply (raised_by_int I W window_id d)|reflexivity]. }
  destruct (create_resource_object d "window" wid) as [e|[]] eqn:Hc.
  { eexists. split; [reflexivity|]. right. right. exists e.
    split; [now apply (raised_by_create_resource_object I W window_id d wid)
           |reflexivity]. }
  destruct (has_extension d "SHAPE") as [e|[|]] eqn:Hext.
  { eexists. split; [reflexivity|]. right. right. exists e.
    split; [now apply (raised_by_has_extension I W window_id d wid)
           |reflexivity]. }
  2:{ eexists. split; [reflexivity|]. right. left.
      split; [|reflexivity]. exists d, wid. repeat split; assumption. }
  destruct (shape_rectangles d (empty_input_shape wid)) as [e|[]] eqn:Hreq.
  { eexists. split; [reflexivity|]. right. right. exists e.
    split; [now apply (raised_by_shape_rectangles I W window_id d wid)
           |reflexivity]. }
  destruct (sync d) as [e|[]] eqn:Hsync.
  { eexists. split; [reflexivity|]. right. right. exists e.
    split; [now apply (raised_by_sync I W window_id d wid)|reflexivity]. }
  eexists. split; [reflexivity|]. left. split.
  - exists d, wid. repeat split; assumption.
  - exists wid. split; reflexivity.
Qed.

(** Exactly one line is printed by [make_click_through]. *)
Lemma printed_line_count_one (I : Interp) (W : World) (window_id : value) :
  exists line, stdout_lines (fst (make_click_through I W window_id)) = [line].
Proof.
  rewrite make_click_through_runs. unfold error_line.
  world_cases d wid; eexists; reflexivity.
Qed.

(** X16: every invocation prints: two lines when the imports are there and the
    argument is missing (the usage text), one line in every other case. *)
Theorem output_line_count (I : Interp) (W : World) (argv : list string) :
  List.length (stdout_lines (events (main I W argv)))
  = if xlib_installed W && (List.length argv <? 2)%nat then 2%nat else 1%nat.
Proof.
  unfold main. destruct (xlib_installed W); cbn [negb andb]; [|reflexivity].
  destruct (List.length argv <? 2)%nat; [reflexivity|].
  destruct (printed_line_count_one I W (VStr (nth 1 argv ""))) as [line Hl].
  destruct (make_click_through I W (VStr (nth 1 argv ""))) as [t [e|[|]]];
    cbn [events fst] in *; rewrite Hl; reflexivity.
Qed.
